(** * goxb/pkg/grpc: client and server bootstrap, logging interceptors

    A shallow embedding of the three Go files of the package:

    - [server.go]: [NewGRPCServer] and its options;
    - the client file: [NewGRPCConn] and its options;
    - the logging file: [UnaryServerInterceptor], [StreamServerInterceptor].

    Go code that logs, reads files, sleeps or panics is embedded in a small
    monad [M] over a [World] (clock, file system, trace of observable
    events) whose results are either a returned value or a panic.

    The package is glue around third-party packages (zap, grpc,
    go-grpc-middleware and its retry and recovery sub-packages, crypto/tls).
    The parts of those packages that the source calls are modelled in
    modules named after the import names used in the source; what stays a
    black box (PEM parsing, duration formatting, the transport) is a field of
    the class [Platform]. *)

From Stdlib Require Import ZArith NArith List String Ascii Bool Lia.
From Stdlib Require Import DecimalString.
Import ListNotations.
Local Open Scope string_scope.
Local Open Scope Z_scope.

Set Implicit Arguments.

(** ** Values, errors, events *)

(** [google.golang.org/grpc/codes]: [type Code uint32] and its constants. *)
Module codes.

Definition Code := N.

Definition OK : Code := 0%N.

Definition Canceled : Code := 1%N.

Definition Unknown : Code := 2%N.

Definition InvalidArgument : Code := 3%N.

Definition DeadlineExceeded : Code := 4%N.

Definition NotFound : Code := 5%N.

Definition AlreadyExists : Code := 6%N.

Definition PermissionDenied : Code := 7%N.

Definition ResourceExhausted : Code := 8%N.

Definition FailedPrecondition : Code := 9%N.

Definition Aborted : Code := 10%N.

Definition OutOfRange : Code := 11%N.

Definition Unimplemented : Code := 12%N.

Definition Internal : Code := 13%N.

Definition Unavailable : Code := 14%N.

Definition DataLoss : Code := 15%N.

Definition Unauthenticated : Code := 16%N.

(** [func (c Code) String() string] *)
Definition String (c : Code) : string :=
  match c with
  | 0%N => "OK"
  | 1%N => "Canceled"
  | 2%N => "Unknown"
  | 3%N => "InvalidArgument"
  | 4%N => "DeadlineExceeded"
  | 5%N => "NotFound"
  | 6%N => "AlreadyExists"
  | 7%N => "PermissionDenied"
  | 8%N => "ResourceExhausted"
  | 9%N => "FailedPrecondition"
  | 10%N => "Aborted"
  | 11%N => "OutOfRange"
  | 12%N => "Unimplemented"
  | 13%N => "Internal"
  | 14%N => "Unavailable"
  | 15%N => "DataLoss"
  | 16%N => "Unauthenticated"
  | _ => "Code(" ++ NilEmpty.string_of_uint (N.to_uint c) ++ ")"
  end.
End codes.

(** A non-nil Go [error]: the text its [Error()] method returns and, when
    the value implements [GRPCStatus()], the code of that status.  The Go
    type [error] itself, which may be nil, is [option Error]. *)
Record Error := mkError {
  err_status : option codes.Code;
  err_text : string
}.

Definition error := option Error.

(** Go's [interface{}] as far as the package looks into it: request and
    response messages, server objects, the value a panic carries. *)
Inductive Any :=
| ANil
| AStr (s : string)
| AInt (n : Z)
| AErr (e : Error).

Definition bytes := list Byte.byte.

(** [go.uber.org/zap]: levels and fields. *)
Module zapcore.
Inductive Level :=
| DebugLevel | InfoLevel | WarnLevel | ErrorLevel
| DPanicLevel | PanicLevel | FatalLevel.

Definition Level_eqb (a b : Level) : bool :=
  match a, b with
  | DebugLevel, DebugLevel | InfoLevel, InfoLevel | WarnLevel, WarnLevel
  | ErrorLevel, ErrorLevel | DPanicLevel, DPanicLevel
  | PanicLevel, PanicLevel | FatalLevel, FatalLevel => true
  | _, _ => false
  end.

Record Field := mkField { Key : string; Interface : Any }.

(** What a logger hands to its core on one write. *)
Record Entry := mkEntry {
  Level_ : Level;
  Message : string;
  Fields : list Field
}.
End zapcore.

(** Where a [*zap.Logger] writes: [zap.NewNop()] has the no-op core. *)
Inductive Sink :=
| NopCore
| Core (name : string).

(** The observable events of a run, in the order they happen. *)
Inductive Event :=
| EvLog (s : Sink) (e : zapcore.Entry)   (* a leveled write asked of a logger *)
| EvReadFile (path : string)             (* [ioutil.ReadFile] was called *)
| EvSleep (d : Z)                        (* a timer of [d] ns ran out *)
| EvUser (tag : string).                 (* caller-supplied code ran *)

(** The world a call runs in: the monotonic clock in nanoseconds, the file
    system as far as [ReadFile] sees it, and the events so far. *)
Record World := mkWorld {
  now : Z;
  files : string -> option bytes;
  trace : list Event
}.

Definition emit (e : Event) (w : World) : World :=
  {| now := now w; files := files w; trace := (trace w ++ [e])%list |}.

Definition advance (d : Z) (w : World) : World :=
  {| now := now w + d; files := files w; trace := trace w |}.

(** ** The monad of Go code: state, with results that return or panic *)

Inductive Outcome (A : Type) :=
| Ret (a : A)
| Panic (v : Any).
Arguments Panic {A} v.

Definition M (A : Type) := World -> Outcome A * World.

Definition ret {A} (a : A) : M A := fun w => (Ret a, w).

Definition bind {A B} (m : M A) (k : A -> M B) : M B :=
  fun w =>
    match m w with
    | (Ret a, w') => k a w'
    | (Panic v, w') => (Panic v, w')
    end.

(** [panic(v)] *)
Definition panic {A} (v : Any) : M A := fun w => (Panic v, w).

(** A deferred function that calls [recover()]: [h] runs, in the state the
    panic left, when [m] panics; its result replaces the result of [m]. *)
Definition recovering {A} (m : M A) (h : Any -> M A) : M A :=
  fun w =>
    match m w with
    | (Ret a, w') => (Ret a, w')
    | (Panic v, w') => h v w'
    end.

Definition tell (e : Event) : M unit := fun w => (Ret tt, emit e w).

(** [time.Now()] *)
Definition time_Now : M Z := fun w => (Ret (now w), w).

Declare Scope go_scope.
Delimit Scope go_scope with go.
Notation "x <- m ;; k" := (bind m (fun x => k))
  (at level 61, m at next level, right associativity) : go_scope.
Notation "' p <- m ;; k" := (bind m (fun x => match x with p => k end))
  (at level 61, p pattern, m at next level, right associativity) : go_scope.
Notation "m ;;; k" := (bind m (fun _ => k))
  (at level 61, right associativity) : go_scope.
Local Open Scope go_scope.

(** ** [context.Context] *)

(** A context as the package and its interceptors use it: the values it
    carries and [Err()], which depends on when it is asked (deadlines) and
    is nil while the context is live. *)
Record Context := mkContext {
  ctx_values : list (string * Any);
  ctx_Err : World -> error
}.

Module context.

Definition Canceled : Error := mkError None "context canceled".

Definition DeadlineExceeded : Error := mkError None "context deadline exceeded".

Definition Background : Context :=
  {| ctx_values := []; ctx_Err := fun _ => None |}.

(** [context.WithTimeout(parent, d)] called in world [w0]. *)
Definition WithTimeout (parent : Context) (d : Z) : M Context :=
  fun w0 =>
    (Ret {| ctx_values := ctx_values parent;
            ctx_Err := fun w =>
              match ctx_Err parent w with
              | Some e => Some e
              | None => if now w0 + d <=? now w
                        then Some DeadlineExceeded else None
              end |}, w0).
End context.

(** [google.golang.org/grpc/status] *)
Module status.
(** [status.Code(err)]: OK for nil, the status's code when the error
    carries one, Unknown otherwise. *)
Definition Code (err : error) : codes.Code :=
  match err with
  | None => codes.OK
  | Some e =>
      match err_status e with
      | Some c => c
      | None => codes.Unknown
      end
  end.

(** [status.Error(c, msg)]; for [codes.OK] it is nil. *)
Definition Error_ (c : codes.Code) (msg : string) : error :=
  if N.eqb c codes.OK then None
  else Some (mkError (Some c)
               ("rpc error: code = " ++ codes.String c ++ " desc = " ++ msg)).
End status.

(** ** [go.uber.org/zap] loggers *)
Module zap.
(** A [*zap.Logger]: its core and the fields added by [With]. *)
Record Logger := mkLogger {
  core : Sink;
  context_ : list zapcore.Field
}.

Definition NewNop : Logger := {| core := NopCore; context_ := [] |}.

Definition Any_ (key : string) (v : Any) : zapcore.Field :=
  zapcore.mkField key v.

Definition With (l : Logger) (fields : list zapcore.Field) : Logger :=
  {| core := core l; context_ := (context_ l ++ fields)%list |}.

Definition log (lvl : zapcore.Level) (l : Logger) (msg : string) : M unit :=
  tell (EvLog (core l) (zapcore.mkEntry lvl msg (context_ l))).

Definition Info := log zapcore.InfoLevel.

Definition Warn := log zapcore.WarnLevel.

Definition Error := log zapcore.ErrorLevel.
End zap.

(** ** The black boxes *)

(** Library functions whose results the package only passes on. *)
Class Platform := {
  (** [time.Duration.String()] of a duration in nanoseconds *)
  Duration_String : Z -> string;
  (** [AppendCertsFromPEM] on an [x509.CertPool]: was a certificate parsed? *)
  AppendCertsFromPEM_ok : bytes -> bool;
  (** [tls.X509KeyPair]: nil, or why the pair does not parse or match *)
  X509KeyPair_err : bytes -> bytes -> error;
  (** what the transport makes of a dial target beyond the options *)
  dial_target_err : string -> error;
  (** [grpc_retry.BackoffLinearWithJitter(50ms, 0.10)], the default backoff *)
  default_backoff : nat -> Z
}.

(** [fmt.Errorf(format + "%w", err)]: a new error without a gRPC status
    whose text is the prefix followed by the text of [err]; a nil [err] is
    printed as fmt prints a bad operand. *)
Definition Errorf_w (pre : string) (err : error) : Error :=
  mkError None
    (pre ++ match err with
             | Some e => err_text e
             | None => "%!w(<nil>)"
             end).

(** ** Files and TLS material *)

Module ioutil.
(** [ioutil.ReadFile]: the content of the file, or the error of opening
    it; the empty path names no file. *)
Definition ReadFile (path : string) : M (bytes * error) :=
  fun w =>
    match (if String.eqb path "" then None else files w path) with
    | Some data => (Ret (data, None), emit (EvReadFile path) w)
    | None =>
        (Ret ([], Some (mkError None
                          ("open " ++ path ++ ": no such file or directory"))),
         emit (EvReadFile path) w)
    end.
End ioutil.

Module x509.
(** A pool as the list of PEM bundles that were added to it. *)
Definition CertPool := list bytes.

Definition NewCertPool : CertPool := [].

Definition AppendCertsFromPEM `{Platform} (s : CertPool) (pemCerts : bytes)
  : CertPool * bool :=
  if AppendCertsFromPEM_ok pemCerts
  then ((s ++ [pemCerts])%list, true)
  else (s, false).
End x509.

Module tls.
Record Certificate := mkCertificate {
  certPEMBlock : bytes;
  keyPEMBlock : bytes
}.

Inductive ClientAuthType :=
| NoClientCert
| RequestClientCert
| RequireAnyClientCert
| VerifyClientCertIfGiven
| RequireAndVerifyClientCert.

(** The fields of [tls.Config] the package sets; the others keep their
    zero values. *)
Record Config := mkConfig {
  Certificates : list Certificate;
  RootCAs : option x509.CertPool;
  ServerName : string;
  ClientAuth : ClientAuthType;
  ClientCAs : option x509.CertPool
}.

Definition zeroConfig : Config :=
  {| Certificates := []; RootCAs := None; ServerName := "";
     ClientAuth := NoClientCert; ClientCAs := None |}.

Definition zeroCertificate : Certificate := mkCertificate [] [].

(** [tls.LoadX509KeyPair]: reads the certificate file, then the key file,
    then parses the pair. *)
Definition LoadX509KeyPair `{Platform} (certFile keyFile : string)
  : M (Certificate * error) :=
  '(certPEM, err) <- ioutil.ReadFile certFile ;;
  match err with
  | Some _ => ret (zeroCertificate, err)
  | None =>
      '(keyPEM, err) <- ioutil.ReadFile keyFile ;;
      match err with
      | Some _ => ret (zeroCertificate, err)
      | None =>
          match X509KeyPair_err certPEM keyPEM with
          | Some e => ret (zeroCertificate, Some e)
          | None => ret (mkCertificate certPEM keyPEM, None)
          end
      end
  end.
End tls.

Module credentials.
(** The interface [credentials.TransportCredentials]: nil, or the value
    [NewTLS] makes of a configuration. *)
Definition TransportCredentials := option tls.Config.

Definition NewTLS (c : tls.Config) : TransportCredentials := Some c.

Definition NewServerTLSFromFile `{Platform} (certFile keyFile : string)
  : M (TransportCredentials * error) :=
  '(cert, err) <- tls.LoadX509KeyPair certFile keyFile ;;
  match err with
  | Some _ => ret (None, err)
  | None =>
      ret (NewTLS {| tls.Certificates := [cert];
                     tls.RootCAs := None;
                     tls.ServerName := "";
                     tls.ClientAuth := tls.NoClientCert;
                     tls.ClientCAs := None |}, None)
  end.
End credentials.

(** ** [google.golang.org/grpc]

    The third-party package, as far as the source uses it: the handler and
    interceptor types, the server and dial options with what each does to
    the options record, and how a server or a connection runs a call
    through its interceptor. *)
Module grpc.

(** *** Server side *)

Record UnaryServerInfo := mkUnaryServerInfo {
  usi_Server : Any;
  usi_FullMethod : string
}.

(** [type UnaryHandler func(ctx, req) (interface{}, error)] *)
Definition UnaryHandler := Context -> Any -> M (Any * error).

Definition UnaryServerInterceptor :=
  Context -> Any -> UnaryServerInfo -> UnaryHandler -> M (Any * error).

Record ServerStream := mkServerStream {
  ss_Context : Context;
  ss_id : Any
}.

Record StreamServerInfo := mkStreamServerInfo {
  ssi_FullMethod : string;
  ssi_IsClientStream : bool;
  ssi_IsServerStream : bool
}.

(** [type StreamHandler func(srv, stream) error] *)
Definition StreamHandler := Any -> ServerStream -> M error.

Definition StreamServerInterceptor :=
  Any -> ServerStream -> StreamServerInfo -> StreamHandler -> M error.

Inductive ServerOption :=
| Creds (c : credentials.TransportCredentials)
| UnaryInterceptor (i : UnaryServerInterceptor)
| StreamInterceptor (i : StreamServerInterceptor).

(** The server: the options it was built with, applied. *)
Record Server := mkServer {
  srv_creds : credentials.TransportCredentials;
  srv_unaryInt : option UnaryServerInterceptor;
  srv_streamInt : option StreamServerInterceptor
}.

Definition applyServerOption (opt : ServerOption) (s : Server) : M Server :=
  match opt with
  | Creds c =>
      ret {| srv_creds := c; srv_unaryInt := srv_unaryInt s;
             srv_streamInt := srv_streamInt s |}
  | UnaryInterceptor i =>
      match srv_unaryInt s with
      | Some _ =>
          panic (AStr "The unary server interceptor was already set and may not be reset.")
      | None =>
          ret {| srv_creds := srv_creds s; srv_unaryInt := Some i;
                 srv_streamInt := srv_streamInt s |}
      end
  | StreamInterceptor i =>
      match srv_streamInt s with
      | Some _ =>
          panic (AStr "The stream server interceptor was already set and may not be reset.")
      | None =>
          ret {| srv_creds := srv_creds s; srv_unaryInt := srv_unaryInt s;
                 srv_streamInt := Some i |}
      end
  end.

Fixpoint applyServerOptions (opts : list ServerOption) (s : Server) : M Server :=
  match opts with
  | [] => ret s
  | opt :: opts' => s' <- applyServerOption opt s ;; applyServerOptions opts' s'
  end.

(** [grpc.NewServer(opt...)] *)
Definition NewServer (opts : list ServerOption) : M Server :=
  applyServerOptions opts
    {| srv_creds := None; srv_unaryInt := None; srv_streamInt := None |}.

(** How the server runs the handler of a unary method: through the
    interceptor when there is one. *)
Definition serveUnary (s : Server) (ctx : Context) (req : Any)
           (info : UnaryServerInfo) (handler : UnaryHandler) : M (Any * error) :=
  match srv_unaryInt s with
  | Some i => i ctx req info handler
  | None => handler ctx req
  end.

Definition serveStream (s : Server) (srv : Any) (stream : ServerStream)
           (info : StreamServerInfo) (handler : StreamHandler) : M error :=
  match srv_streamInt s with
  | Some i => i srv stream info handler
  | None => handler srv stream
  end.

(** *** Client side.  The reply pointer, the connection and the per-call
    options of an invoker are left out: calls are made without per-call
    options. *)

Definition UnaryInvoker := Context -> string -> Any -> M error.

Definition UnaryClientInterceptor :=
  Context -> string -> Any -> UnaryInvoker -> M error.

Record StreamDesc := mkStreamDesc {
  StreamName : string;
  ServerStreams : bool;
  ClientStreams : bool
}.

(** A [grpc.ClientStream] is an opaque handle. *)
Definition Streamer := Context -> StreamDesc -> string -> M (Any * error).

Definition StreamClientInterceptor :=
  Context -> StreamDesc -> string -> Streamer -> M (Any * error).

Inductive DialOption :=
| WithInsecure
| WithTransportCredentials (c : credentials.TransportCredentials)
| WithUnaryInterceptor (f : UnaryClientInterceptor)
| WithStreamInterceptor (f : StreamClientInterceptor).

Record dialOptions := mkDialOptions {
  insecure : bool;
  TransportCredentials : credentials.TransportCredentials;
  unaryInt : option UnaryClientInterceptor;
  streamInt : option StreamClientInterceptor
}.

(** What each option's closure does to [dialOptions]: it assigns one
    field. *)
Definition applyDialOption (o : dialOptions) (opt : DialOption) : dialOptions :=
  match opt with
  | WithInsecure =>
      {| insecure := true; TransportCredentials := TransportCredentials o;
         unaryInt := unaryInt o; streamInt := streamInt o |}
  | WithTransportCredentials c =>
      {| insecure := insecure o; TransportCredentials := c;
         unaryInt := unaryInt o; streamInt := streamInt o |}
  | WithUnaryInterceptor f =>
      {| insecure := insecure o; TransportCredentials := TransportCredentials o;
         unaryInt := Some f; streamInt := streamInt o |}
  | WithStreamInterceptor f =>
      {| insecure := insecure o; TransportCredentials := TransportCredentials o;
         unaryInt := unaryInt o; streamInt := Some f |}
  end.

Definition defaultDialOptions : dialOptions :=
  {| insecure := false; TransportCredentials := None;
     unaryInt := None; streamInt := None |}.

Record ClientConn := mkClientConn {
  target : string;
  dopts : dialOptions
}.

Definition errNoTransportSecurity : Error :=
  mkError None "grpc: no transport security set (use grpc.WithInsecure() explicitly or set credentials)".

Definition errCredentialsConflict : Error :=
  mkError None "grpc: transport credentials are set for an insecure connection (grpc.WithTransportCredentials() and grpc.WithInsecure() are both called)".

(** [grpc.Dial(target, opts...)], non-blocking: the options are applied
    in order, the security settings are checked, the target is handed to
    the transport. *)
Definition Dial `{Platform} (tgt : string) (opts : list DialOption)
  : M (option ClientConn * error) :=
  let o := fold_left applyDialOption opts defaultDialOptions in
  match insecure o, TransportCredentials o with
  | false, None => ret (None, Some errNoTransportSecurity)
  | true, Some _ => ret (None, Some errCredentialsConflict)
  | _, _ =>
      match dial_target_err tgt with
      | Some e => ret (None, Some e)
      | None => ret (Some {| target := tgt; dopts := o |}, None)
      end
  end.

(** [Invoke] of a [ClientConn]: through the connection's unary interceptor
    when it has one; [invoke] is the transport's own invoker. *)
Definition Invoke (cc : ClientConn) (invoke : UnaryInvoker)
           (ctx : Context) (method : string) (args : Any) : M error :=
  match unaryInt (dopts cc) with
  | Some i => i ctx method args invoke
  | None => invoke ctx method args
  end.

Definition NewStream (cc : ClientConn) (newClientStream : Streamer)
           (ctx : Context) (desc : StreamDesc) (method : string)
  : M (Any * error) :=
  match streamInt (dopts cc) with
  | Some i => i ctx desc method newClientStream
  | None => newClientStream ctx desc method
  end.
End grpc.

(** ** [github.com/grpc-ecosystem/go-grpc-middleware]: chains

    The third-party chaining functions: the first interceptor of the list
    is the outermost. *)
Module grpc_middleware.
(** The loop [for i := n - 1; i >= 0; i--] wraps the handler in the
    interceptors from the last to the first; each sees the [info] of the
    outer call. *)
Definition ChainUnaryServer (interceptors : list grpc.UnaryServerInterceptor)
  : grpc.UnaryServerInterceptor :=
  fun ctx req info handler =>
    fold_right
      (fun currentInter currentHandler =>
         fun currentCtx currentReq =>
           currentInter currentCtx currentReq info currentHandler)
      handler interceptors ctx req.

Definition ChainStreamServer (interceptors : list grpc.StreamServerInterceptor)
  : grpc.StreamServerInterceptor :=
  fun srv ss info handler =>
    fold_right
      (fun currentInter currentHandler =>
         fun currentSrv currentStream =>
           currentInter currentSrv currentStream info currentHandler)
      handler interceptors srv ss.

Definition ChainUnaryClient (interceptors : list grpc.UnaryClientInterceptor)
  : grpc.UnaryClientInterceptor :=
  fun ctx method req invoker =>
    fold_right
      (fun currentInter currentInvoker =>
         fun currentCtx currentMethod currentReq =>
           currentInter currentCtx currentMethod currentReq currentInvoker)
      invoker interceptors ctx method req.

Definition ChainStreamClient (interceptors : list grpc.StreamClientInterceptor)
  : grpc.StreamClientInterceptor :=
  fun ctx desc method streamer =>
    fold_right
      (fun currentInter currentStreamer =>
         fun currentCtx currentDesc currentMethod =>
           currentInter currentCtx currentDesc currentMethod currentStreamer)
      streamer interceptors ctx desc method.
End grpc_middleware.

(** ** [go-grpc-middleware/recovery]

    The third-party recovery interceptors: a deferred [recover()] around
    the handler, and the recovery handler of the options turning the panic
    value into the error of the call. *)
Module grpc_recovery.
(** [type RecoveryHandlerFunc func(p interface{}) (err error)] *)
Definition RecoveryHandlerFunc := Any -> M error.

Definition RecoveryHandlerFuncContext := Context -> Any -> M error.

Record options := mkOptions {
  recoveryHandlerFunc : option RecoveryHandlerFuncContext
}.

Definition Option_ := options -> options.

Definition defaultOptions : options := {| recoveryHandlerFunc := None |}.

Definition evaluateOptions (opts : list Option_) : options :=
  fold_left (fun o opt => opt o) opts defaultOptions.

Definition WithRecoveryHandler (f : RecoveryHandlerFunc) : Option_ :=
  fun _ => {| recoveryHandlerFunc := Some (fun _ p => f p) |}.

Definition fmt_v (p : Any) : string :=
  match p with
  | ANil => "<nil>"
  | AStr s => s
  | AInt n => NilEmpty.string_of_int (Z.to_int n)
  | AErr e => err_text e
  end.

Definition recoverFrom (ctx : Context) (p : Any)
           (r : option RecoveryHandlerFuncContext) : M error :=
  match r with
  | None => ret (status.Error_ codes.Internal (fmt_v p))
  | Some r => r ctx p
  end.

(** The deferred function runs [recoverFrom] when the handler panicked;
    the first result is then the zero value and the error is what the
    recovery handler returns. *)
Definition UnaryServerInterceptor (opts : list Option_)
  : grpc.UnaryServerInterceptor :=
  let o := evaluateOptions opts in
  fun ctx req info handler =>
    recovering (handler ctx req)
      (fun r =>
         err <- recoverFrom ctx r (recoveryHandlerFunc o) ;;
         ret (ANil, err)).

Definition StreamServerInterceptor (opts : list Option_)
  : grpc.StreamServerInterceptor :=
  let o := evaluateOptions opts in
  fun srv stream info handler =>
    recovering (handler srv stream)
      (fun r => recoverFrom (grpc.ss_Context stream) r (recoveryHandlerFunc o)).
End grpc_recovery.

(** ** [go-grpc-middleware/retry]

    The third-party retry interceptors with the three call options the
    source sets.  Per-call retry options are left out; the attempt header
    is a value of the context of the attempt. *)
Module grpc_retry.
(** [type BackoffFunc func(attempt uint) time.Duration] *)
Definition BackoffFunc := nat -> Z.

(** [BackoffLinear] waits for a fixed period of time between calls. *)
Definition BackoffLinear (waitBetween : Z) : BackoffFunc :=
  fun attempt => waitBetween.

Record options := mkOptions {
  max : nat;
  perCallTimeout : Z;
  includeHeader : bool;
  codes_ : list codes.Code;
  backoffFunc : Context -> nat -> Z
}.

Definition CallOption := options -> options.

Definition DefaultRetriableCodes : list codes.Code :=
  [codes.ResourceExhausted; codes.Unavailable].

Definition defaultOptions `{Platform} : options :=
  {| max := 0; perCallTimeout := 0; includeHeader := true;
     codes_ := DefaultRetriableCodes;
     backoffFunc := fun _ attempt => default_backoff attempt |}.

Definition WithMax (maxRetries : nat) : CallOption :=
  fun o =>
    {| max := maxRetries; perCallTimeout := perCallTimeout o;
       includeHeader := includeHeader o; codes_ := codes_ o;
       backoffFunc := backoffFunc o |}.

Definition WithBackoff (bf : BackoffFunc) : CallOption :=
  fun o =>
    {| max := max o; perCallTimeout := perCallTimeout o;
       includeHeader := includeHeader o; codes_ := codes_ o;
       backoffFunc := fun _ attempt => bf attempt |}.

Definition WithPerRetryTimeout (timeout : Z) : CallOption :=
  fun o =>
    {| max := max o; perCallTimeout := timeout;
       includeHeader := includeHeader o; codes_ := codes_ o;
       backoffFunc := backoffFunc o |}.

Definition reuseOrNewWithCallOptions (opt : options)
           (callOptions : list CallOption) : options :=
  fold_left (fun o f => f o) callOptions opt.

Definition isContextError (err : error) : bool :=
  let code := status.Code err in
  N.eqb code codes.DeadlineExceeded || N.eqb code codes.Canceled.

Definition isRetriable (err : error) (callOpts : options) : bool :=
  let errCode := status.Code err in
  if isContextError err then false
  else existsb (fun code => N.eqb code errCode) (codes_ callOpts).

Definition AttemptMetadataKey : string := "x-retry-attempty".

Definition perCallContext (parentCtx : Context) (callOpts : options)
           (attempt : nat) : M Context :=
  ctx <- (if negb (perCallTimeout callOpts =? 0)
          then context.WithTimeout parentCtx (perCallTimeout callOpts)
          else ret parentCtx) ;;
  if Nat.ltb 0 attempt && includeHeader callOpts
  then ret {| ctx_values :=
                (AttemptMetadataKey,
                 AStr (NilEmpty.string_of_uint (Nat.to_uint attempt)))
                :: ctx_values ctx;
              ctx_Err := ctx_Err ctx |}
  else ret ctx.

Definition Error_eqb (a b : Error) : bool :=
  match err_status a, err_status b with
  | None, None => String.eqb (err_text a) (err_text b)
  | Some x, Some y => N.eqb x y && String.eqb (err_text a) (err_text b)
  | _, _ => false
  end.

Definition contextErrToGrpcErr (err : Error) : error :=
  if Error_eqb err context.DeadlineExceeded
  then status.Error_ codes.DeadlineExceeded (err_text err)
  else if Error_eqb err context.Canceled
  then status.Error_ codes.Canceled (err_text err)
  else status.Error_ codes.Unknown (err_text err).

(** The wait before attempt number [attempt]: none before the first. *)
Definition waitTime (parentCtx : Context) (callOpts : options)
           (attempt : nat) : Z :=
  if Nat.ltb 0 attempt then backoffFunc callOpts parentCtx attempt else 0.

(** [waitRetryBackoff]: a timer of [waitTime] against the parent
    context; when the parent is done by the time the timer would fire,
    its error is returned, otherwise the timer runs out. *)
Definition waitRetryBackoff (attempt : nat) (parentCtx : Context)
           (callOpts : options) : M error :=
  let d := waitTime parentCtx callOpts attempt in
  if 0 <? d
  then fun w =>
         match ctx_Err parentCtx (advance d w) with
         | Some e => (Ret (contextErrToGrpcErr e), advance d w)
         | None => (Ret None, emit (EvSleep d) (advance d w))
         end
  else ret None.

(** The body of [for attempt := uint(0); attempt < callOpts.max; attempt++];
    [n] counts the iterations left. *)
Fixpoint unaryLoop (callOpts : options) (parentCtx : Context)
         (method : string) (req : Any) (invoker : grpc.UnaryInvoker)
         (n attempt : nat) (lastErr : error) {struct n} : M error :=
  match n with
  | O => ret lastErr
  | S n' =>
      werr <- waitRetryBackoff attempt parentCtx callOpts ;;
      match werr with
      | Some _ => ret werr
      | None =>
          callCtx <- perCallContext parentCtx callOpts attempt ;;
          lastErr <- invoker callCtx method req ;;
          let continue :=
            unaryLoop callOpts parentCtx method req invoker n' (S attempt) lastErr in
          match lastErr with
          | None => ret None
          | Some _ =>
              if isContextError lastErr
              then fun w =>
                     match ctx_Err parentCtx w with
                     | Some _ => (Ret lastErr, w)
                     | None =>
                         if negb (perCallTimeout callOpts =? 0)
                         then continue w
                         else if negb (isRetriable lastErr callOpts)
                              then (Ret lastErr, w)
                              else continue w
                     end
              else if negb (isRetriable lastErr callOpts)
                   then ret lastErr
                   else continue
          end
      end
  end.

Definition UnaryClientInterceptor `{Platform} (optFuncs : list CallOption)
  : grpc.UnaryClientInterceptor :=
  let intOpts := reuseOrNewWithCallOptions defaultOptions optFuncs in
  fun parentCtx method req invoker =>
    let callOpts := intOpts in
    if Nat.eqb (max callOpts) 0
    then invoker parentCtx method req
    else unaryLoop callOpts parentCtx method req invoker (max callOpts) 0 None.

(** The streaming loop differs in the attempt number given to
    [perCallContext], always 0, and in what it returns.  The stream it
    returns on success is wrapped by the library to retry receives; the
    wrapper is not modelled, the stream is returned as it is. *)
Fixpoint streamLoop (callOpts : options) (parentCtx : Context)
         (desc : grpc.StreamDesc) (method : string) (streamer : grpc.Streamer)
         (n attempt : nat) (lastErr : error) {struct n} : M (Any * error) :=
  match n with
  | O => ret (ANil, lastErr)
  | S n' =>
      werr <- waitRetryBackoff attempt parentCtx callOpts ;;
      match werr with
      | Some _ => ret (ANil, werr)
      | None =>
          callCtx <- perCallContext parentCtx callOpts 0 ;;
          '(newStreamer, lastErr) <- streamer callCtx desc method ;;
          let continue :=
            streamLoop callOpts parentCtx desc method streamer n' (S attempt) lastErr in
          match lastErr with
          | None => ret (newStreamer, None)
          | Some _ =>
              if isContextError lastErr
              then fun w =>
                     match ctx_Err parentCtx w with
                     | Some _ => (Ret (ANil, lastErr), w)
                     | None =>
                         if negb (perCallTimeout callOpts =? 0)
                         then continue w
                         else if negb (isRetriable lastErr callOpts)
                              then (Ret (ANil, lastErr), w)
                              else continue w
                     end
              else if negb (isRetriable lastErr callOpts)
                   then ret (ANil, lastErr)
                   else continue
          end
      end
  end.

Definition StreamClientInterceptor `{Platform} (optFuncs : list CallOption)
  : grpc.StreamClientInterceptor :=
  let intOpts := reuseOrNewWithCallOptions defaultOptions optFuncs in
  fun parentCtx desc method streamer =>
    let callOpts := intOpts in
    if Nat.eqb (max callOpts) 0
    then streamer parentCtx desc method
    else if grpc.ClientStreams desc
    then ret (ANil,
              status.Error_ codes.Unimplemented
                "grpc_retry: cannot retry on ClientStreams, set grpc_retry.Disable()")
    else streamLoop callOpts parentCtx desc method streamer (max callOpts) 0 None.
End grpc_retry.

(** [time.Second], in nanoseconds *)
Definition time_Second : Z := 1000000000.

(** ** The logging interceptors of the package *)

(** [fmt]'s [%-12s]: left-justified, padded with spaces to width 12. *)
Definition pad_right (width : nat) (s : string) : string :=
  s ++ String.concat "" (repeat " " (width - String.length s)).

Module interceptor.
Section WithPlatform.
Context `{Platform}.

(** [type LoggerFeild func(context.Context) zap.Field] *)
Definition LoggerFeild := Context -> zapcore.Field.

Definition applyLoggerFeilds (ctx : Context) (lfs : list LoggerFeild)
  : list zapcore.Field :=
  fold_left (fun fields ls => (fields ++ [ls ctx])%list) lfs [].

(** The two [fmt.Sprintf] calls, the same in both interceptors. *)
Definition log_message (startTime endTime : Z) (fullMethod : string)
           (code : codes.Code) (err : error) : string :=
  match err with
  | Some e =>
      "latency=" ++ pad_right 12 (Duration_String (endTime - startTime))
        ++ " " ++ fullMethod ++ " " ++ codes.String code
        ++ ", err=" ++ err_text e
  | None =>
      "latency=" ++ pad_right 12 (Duration_String (endTime - startTime))
        ++ " " ++ fullMethod ++ " " ++ codes.String code
  end.

Definition UnaryServerInterceptor (logger : zap.Logger)
           (opts : list LoggerFeild) : grpc.UnaryServerInterceptor :=
  fun ctx req info handler =>
    startTime <- time_Now ;;
    '(resp, err) <- handler ctx req ;;
    endTime <- time_Now ;;
    let code := status.Code err in
    let fields := applyLoggerFeilds ctx opts in
    let msg := log_message startTime endTime (grpc.usi_FullMethod info) code err in
    (if N.eqb code codes.Internal || N.eqb code codes.Unavailable
     then zap.Error (zap.With logger fields) msg
     else zap.Info (zap.With logger fields) msg) ;;;
    ret (resp, err).

Definition StreamServerInterceptor (logger : zap.Logger)
           (opts : list LoggerFeild) : grpc.StreamServerInterceptor :=
  fun srv stream info handler =>
    let ctx := grpc.ss_Context stream in
    startTime <- time_Now ;;
    err <- handler srv stream ;;
    endTime <- time_Now ;;
    let code := status.Code err in
    let fields := applyLoggerFeilds ctx opts in
    let msg := log_message startTime endTime (grpc.ssi_FullMethod info) code err in
    (if N.eqb code codes.Internal || N.eqb code codes.Unavailable
     then zap.Error (zap.With logger fields) msg
     else zap.Info (zap.With logger fields) msg) ;;;
    ret err.
End WithPlatform.
End interceptor.

(** ** [server.go] *)
Module server.
Section WithPlatform.
Context `{Platform}.

Record ServerCredentialsConfig := mkServerCredentialsConfig {
  CAPath : string;
  CertPath : string;
  KeyPath : string
}.

Record serverOptions := mkServerOptions {
  logger : zap.Logger;
  creds : ServerCredentialsConfig;
  streamInterceptors : list grpc.StreamServerInterceptor;
  unaryInterceptors : list grpc.UnaryServerInterceptor
}.

(** [type ServerOption func(o)], [o] a pointer to [serverOptions] *)
Definition ServerOption := serverOptions -> serverOptions.

Definition ServerLogger (logger_ : zap.Logger) : ServerOption :=
  fun o =>
    {| logger := logger_; creds := creds o;
       streamInterceptors := streamInterceptors o;
       unaryInterceptors := unaryInterceptors o |}.

Definition ServerCredentials (creds_ : ServerCredentialsConfig) : ServerOption :=
  fun o =>
    {| logger := logger o; creds := creds_;
       streamInterceptors := streamInterceptors o;
       unaryInterceptors := unaryInterceptors o |}.

Definition UnaryServerInterceptors
           (interceptors : list grpc.UnaryServerInterceptor) : ServerOption :=
  fun o =>
    {| logger := logger o; creds := creds o;
       streamInterceptors := streamInterceptors o;
       unaryInterceptors := interceptors |}.

Definition StreamServerInterceptors
           (interceptors : list grpc.StreamServerInterceptor) : ServerOption :=
  fun o =>
    {| logger := logger o; creds := creds o;
       streamInterceptors := interceptors;
       unaryInterceptors := unaryInterceptors o |}.

Definition applyServerOptions (opts : list ServerOption) : serverOptions :=
  fold_left (fun o opt => opt o) opts
    {| logger := zap.NewNop;
       creds := mkServerCredentialsConfig "" "" "";
       streamInterceptors := [];
       unaryInterceptors := [] |}.

(** The closure [recoveryFn] of [NewGRPCServer]. *)
Definition recoveryFn (o : serverOptions) : grpc_recovery.RecoveryHandlerFunc :=
  fun err =>
    zap.Error (zap.With (logger o) [zap.Any_ "err" err]) "recover unkown execption" ;;;
    ret None.

(** The credentials stage of [NewGRPCServer]: the server options it
    leaves in [opts], or the error of an early [return nil, err]. *)
Definition serverCreds (o : serverOptions)
  : M (Error + list grpc.ServerOption) :=
  let opts : list grpc.ServerOption := [] in
  let creds := creds o in
  if String.eqb (CAPath creds) "" && String.eqb (CertPath creds) ""
     && String.eqb (KeyPath creds) ""
  then
    zap.Info (logger o) "No TLS keys, insecure mode" ;;;
    ret (inr opts)
  else
    if String.eqb (CAPath creds) ""
    then
      zap.Info (logger o) "enable sample credentials in grpc server" ;;;
      '(tc, err) <- credentials.NewServerTLSFromFile (CertPath creds) (KeyPath creds) ;;
      match err with
      | Some _ => ret (inl (Errorf_w "bad tls credentials: " err))
      | None => ret (inr (opts ++ [grpc.Creds tc])%list)
      end
    else
      zap.Info (logger o) "enable mutual credentials in grpc server" ;;;
      let cPool := x509.NewCertPool in
      r <- (if negb (String.eqb (CAPath creds) "")
            then
              '(caCert, err) <- ioutil.ReadFile (CAPath creds) ;;
              match err with
              | Some _ => ret (inl (Errorf_w "failed to read ac cert: " err))
              | None =>
                  let '(cPool', ok) := x509.AppendCertsFromPEM cPool caCert in
                  if negb (Bool.eqb ok true)
                  then ret (inl (Errorf_w "bad ac certificate: " err))
                  else ret (inr cPool')
              end
            else ret (inr cPool)) ;;
      match r with
      | inl e => ret (inl e)
      | inr cPool =>
          '(certPair, err) <- tls.LoadX509KeyPair (CertPath creds) (KeyPath creds) ;;
          match err with
          | Some _ => ret (inl (Errorf_w "bad certificate of gRPC server, " err))
          | None =>
              let tlsConfig :=
                {| tls.Certificates := [certPair];
                   tls.RootCAs := None;
                   tls.ServerName := "";
                   tls.ClientAuth := tls.RequireAndVerifyClientCert;
                   tls.ClientCAs := Some cPool |} in
              ret (inr (opts ++ [grpc.Creds (credentials.NewTLS tlsConfig)])%list)
          end
      end.

(** The interceptor lists of [NewGRPCServer]: recovery, then the
    caller's. *)
Definition serverUnaryInterceptors (o : serverOptions)
  : list grpc.UnaryServerInterceptor :=
  let rec := grpc_recovery.WithRecoveryHandler (recoveryFn o) in
  ([grpc_recovery.UnaryServerInterceptor [rec]] ++ unaryInterceptors o)%list.

Definition serverStreamInterceptors (o : serverOptions)
  : list grpc.StreamServerInterceptor :=
  let rec := grpc_recovery.WithRecoveryHandler (recoveryFn o) in
  ([grpc_recovery.StreamServerInterceptor [rec]] ++ streamInterceptors o)%list.

Definition NewGRPCServer (options : list ServerOption)
  : M (option grpc.Server * error) :=
  let o := applyServerOptions options in
  r <- serverCreds o ;;
  match r with
  | inl e => ret (None, Some e)
  | inr opts =>
      let unaryInterceptors := serverUnaryInterceptors o in
      let streamInterceptors := serverStreamInterceptors o in
      let opts :=
        (opts ++
         [grpc.UnaryInterceptor (grpc_middleware.ChainUnaryServer unaryInterceptors);
          grpc.StreamInterceptor (grpc_middleware.ChainStreamServer streamInterceptors)])%list in
      grpcServer <- grpc.NewServer opts ;;
      ret (Some grpcServer, None)
  end.
End WithPlatform.
End server.

(** ** The client file *)
Module client.
Section WithPlatform.
Context `{Platform}.

Record ClientCredentialsConfig := mkClientCredentialsConfig {
  CAPath : string;
  CertPath : string;
  KeyPath : string;
  ServerName : string;
  Insecure : bool
}.

Record clientOptions := mkClientOptions {
  logger : zap.Logger;
  retryMax : nat;
  retryTimeout : Z;
  creds : ClientCredentialsConfig;
  streamInterceptors : list grpc.StreamClientInterceptor;
  unaryInterceptors : list grpc.UnaryClientInterceptor
}.

(** [type ClientOption func(o)], [o] a pointer to [clientOptions] *)
Definition ClientOption := clientOptions -> clientOptions.

Definition ClientLogger (logger_ : zap.Logger) : ClientOption :=
  fun o =>
    {| logger := logger_; retryMax := retryMax o; retryTimeout := retryTimeout o;
       creds := creds o; streamInterceptors := streamInterceptors o;
       unaryInterceptors := unaryInterceptors o |}.

Definition ClientRetryTimeout (timeout : Z) : ClientOption :=
  fun o =>
    {| logger := logger o; retryMax := retryMax o; retryTimeout := timeout;
       creds := creds o; streamInterceptors := streamInterceptors o;
       unaryInterceptors := unaryInterceptors o |}.

Definition ClientRetryMax (max : nat) : ClientOption :=
  fun o =>
    {| logger := logger o; retryMax := max; retryTimeout := retryTimeout o;
       creds := creds o; streamInterceptors := streamInterceptors o;
       unaryInterceptors := unaryInterceptors o |}.

Definition ClientCredentials (creds_ : ClientCredentialsConfig) : ClientOption :=
  fun o =>
    {| logger := logger o; retryMax := retryMax o; retryTimeout := retryTimeout o;
       creds := creds_; streamInterceptors := streamInterceptors o;
       unaryInterceptors := unaryInterceptors o |}.

Definition ClientCInsecure : ClientOption :=
  fun o =>
    {| logger := logger o; retryMax := retryMax o; retryTimeout := retryTimeout o;
       creds := {| CAPath := CAPath (creds o); CertPath := CertPath (creds o);
                   KeyPath := KeyPath (creds o);
                   ServerName := ServerName (creds o); Insecure := true |};
       streamInterceptors := streamInterceptors o;
       unaryInterceptors := unaryInterceptors o |}.

Definition UnaryClientInterceptors
           (interceptors : list grpc.UnaryClientInterceptor) : ClientOption :=
  fun o =>
    {| logger := logger o; retryMax := retryMax o; retryTimeout := retryTimeout o;
       creds := creds o; streamInterceptors := streamInterceptors o;
       unaryInterceptors := interceptors |}.

Definition StreamClientInterceptors
           (interceptors : list grpc.StreamClientInterceptor) : ClientOption :=
  fun o =>
    {| logger := logger o; retryMax := retryMax o; retryTimeout := retryTimeout o;
       creds := creds o; streamInterceptors := interceptors;
       unaryInterceptors := unaryInterceptors o |}.

Definition applyClientOptions (opts : list ClientOption) : clientOptions :=
  fold_left (fun o opt => opt o) opts
    {| logger := zap.NewNop; retryMax := 0%nat; retryTimeout := 0;
       creds := mkClientCredentialsConfig "" "" "" "" false;
       streamInterceptors := []; unaryInterceptors := [] |}.

(** The credentials stage of [NewGRPCConn]: the dial options it leaves
    in [options], or the error of an early [return nil, err]. *)
Definition clientCreds (o : clientOptions)
  : M (Error + list grpc.DialOption) :=
  let options : list grpc.DialOption := [] in
  if Insecure (creds o)
  then ret (inr (options ++ [grpc.WithInsecure])%list)
  else
    let clientTLSConfig :=
      {| tls.Certificates := []; tls.RootCAs := None;
         tls.ServerName := ServerName (creds o);
         tls.ClientAuth := tls.NoClientCert; tls.ClientCAs := None |} in
    r <- (if negb (String.eqb (CAPath (creds o)) "")
          then
            let cPool := x509.NewCertPool in
            '(caCert, err) <- ioutil.ReadFile (CAPath (creds o)) ;;
            match err with
            | Some e => ret (inl e)
            | None =>
                let '(cPool', ok) := x509.AppendCertsFromPEM cPool caCert in
                if negb (Bool.eqb ok true)
                then ret (inl (Errorf_w "failed to append ca crt: " err))
                else
                  ret (inr {| tls.Certificates := tls.Certificates clientTLSConfig;
                              tls.RootCAs := Some cPool';
                              tls.ServerName := tls.ServerName clientTLSConfig;
                              tls.ClientAuth := tls.ClientAuth clientTLSConfig;
                              tls.ClientCAs := tls.ClientCAs clientTLSConfig |})
            end
          else ret (inr clientTLSConfig)) ;;
    match r with
    | inl e => ret (inl e)
    | inr clientTLSConfig =>
        r <- (if negb (String.eqb (CertPath (creds o)) "")
                 && negb (String.eqb (KeyPath (creds o)) "")
              then
                '(clientCert, err) <-
                  tls.LoadX509KeyPair (CertPath (creds o)) (KeyPath (creds o)) ;;
                match err with
                | Some _ => ret (inl (Errorf_w "failed to append ca crt: " err))
                | None =>
                    ret (inr {| tls.Certificates := [clientCert];
                                tls.RootCAs := tls.RootCAs clientTLSConfig;
                                tls.ServerName := tls.ServerName clientTLSConfig;
                                tls.ClientAuth := tls.ClientAuth clientTLSConfig;
                                tls.ClientCAs := tls.ClientCAs clientTLSConfig |})
                end
              else ret (inr clientTLSConfig)) ;;
        match r with
        | inl e => ret (inl e)
        | inr clientTLSConfig =>
            let creds := credentials.NewTLS clientTLSConfig in
            ret (inr (options ++ [grpc.WithTransportCredentials creds])%list)
        end
    end.

Definition retryOpts (o : clientOptions) : list grpc_retry.CallOption :=
  [grpc_retry.WithBackoff (grpc_retry.BackoffLinear time_Second);
   grpc_retry.WithMax (retryMax o);
   grpc_retry.WithPerRetryTimeout (retryTimeout o)].

(** The four interceptor options, in the order of the [append]. *)
Definition interceptorOptions (o : clientOptions) : list grpc.DialOption :=
  [grpc.WithStreamInterceptor (grpc_retry.StreamClientInterceptor (retryOpts o));
   grpc.WithUnaryInterceptor (grpc_retry.UnaryClientInterceptor (retryOpts o));
   grpc.WithUnaryInterceptor (grpc_middleware.ChainUnaryClient (unaryInterceptors o));
   grpc.WithStreamInterceptor (grpc_middleware.ChainStreamClient (streamInterceptors o))].

Definition NewGRPCConn (address : string) (opts : list ClientOption)
  : M (option grpc.ClientConn * error) :=
  let o := applyClientOptions opts in
  r <- clientCreds o ;;
  match r with
  | inl e => ret (None, Some e)
  | inr options =>
      let options := (options ++ interceptorOptions o)%list in
      grpc.Dial address options
  end.
End WithPlatform.
End client.

(** * Vocabulary of the properties *)

(** ** Reading a trace *)

(** The writes asked of loggers, in order. *)
Fixpoint logged (tr : list Event) : list zapcore.Entry :=
  match tr with
  | [] => []
  | EvLog _ e :: tr' => e :: logged tr'
  | _ :: tr' => logged tr'
  end.

(** The paths handed to [ReadFile], in order. *)
Fixpoint reads (tr : list Event) : list string :=
  match tr with
  | [] => []
  | EvReadFile p :: tr' => p :: reads tr'
  | _ :: tr' => reads tr'
  end.

(** The waits of the retry interceptor, in order. *)
Fixpoint sleeps (tr : list Event) : list Z :=
  match tr with
  | [] => []
  | EvSleep d :: tr' => d :: sleeps tr'
  | _ :: tr' => sleeps tr'
  end.

(** How often caller-supplied code tagged [tag] ran. *)
Fixpoint count_user (tag : string) (tr : list Event) : nat :=
  match tr with
  | [] => 0%nat
  | EvUser t :: tr' =>
      if String.eqb t tag then S (count_user tag tr') else count_user tag tr'
  | _ :: tr' => count_user tag tr'
  end.

(** ** A platform and worlds to run examples in *)

(** A platform whose parsers accept any non-empty bundle and any pair of
    equal length, and whose transport accepts every target. *)
Definition demo_platform : Platform :=
  {| Duration_String := fun d => NilEmpty.string_of_int (Z.to_int d) ++ "ns";
     AppendCertsFromPEM_ok := fun b => negb (Nat.eqb (List.length b) 0);
     X509KeyPair_err := fun c k =>
       if Nat.eqb (List.length c) (List.length k) then None
       else Some (mkError None "tls: private key does not match public key");
     dial_target_err := fun _ => None;
     default_backoff := fun _ => 50000000 |}.

(** A world with an empty disk. *)
Definition empty_world : World :=
  {| now := 0; files := fun _ => None; trace := [] |}.

(** A world whose disk holds one CA bundle, [ca.pem]. *)
Definition ca_world : World :=
  {| now := 0;
     files := fun p => if String.eqb p "ca.pem" then Some [Byte.x2d] else None;
     trace := [] |}.

(** ** What the interceptors and the factories are expected to do *)

(** The severity rule of both interceptors, as a function of the error. *)
Definition is_alarming (err : error) : bool :=
  N.eqb (status.Code err) codes.Internal
  || N.eqb (status.Code err) codes.Unavailable.

(** The record [recoveryFn] writes for the fault value [v]. *)
Definition recovered_entry (o : server.serverOptions) (v : Any) : Event :=
  EvLog (zap.core (server.logger o))
    (zapcore.mkEntry zapcore.ErrorLevel "recover unkown execption"
       (zap.context_ (server.logger o) ++ [zap.Any_ "err" v])%list).

(** The recovery interceptors [NewGRPCServer] builds. *)
Definition unaryRecovery (o : server.serverOptions) : grpc.UnaryServerInterceptor :=
  grpc_recovery.UnaryServerInterceptor
    [grpc_recovery.WithRecoveryHandler (server.recoveryFn o)].

Definition streamRecovery (o : server.serverOptions) : grpc.StreamServerInterceptor :=
  grpc_recovery.StreamServerInterceptor
    [grpc_recovery.WithRecoveryHandler (server.recoveryFn o)].

(** Go's [strings.HasPrefix]. *)
Fixpoint has_prefix (p s : string) : bool :=
  match p with
  | EmptyString => true
  | String a p' =>
      match s with
      | EmptyString => false
      | String b s' => Ascii.eqb a b && has_prefix p' s'
      end
  end.

(** The error kinds of the specification.  The code has no such type:
    each return site of [NewGRPCServer] wraps its error in a message of
    its own, and the kind is read off that message. *)
Inductive CredentialErrorKind :=
| CAUnreadable
| CAInvalid
| KeyPairInvalid.

Definition credentialErrorKind (e : Error) : option CredentialErrorKind :=
  if has_prefix "failed to read ac cert: " (err_text e) then Some CAUnreadable
  else if has_prefix "bad ac certificate: " (err_text e) then Some CAInvalid
  else if has_prefix "bad certificate of gRPC server, " (err_text e)
  then Some KeyPairInvalid
  else if has_prefix "bad tls credentials: " (err_text e)
  then Some KeyPairInvalid
  else None.

(** ** Test doubles *)

(** A transport on which every attempt fails: the attempt leaves the event
    [EvUser "attempt"], and the attempt number [k] of the run (counting the
    attempts already in the trace) fails with [errs k]. *)
Definition failing_invoker (errs : nat -> Error) : grpc.UnaryInvoker :=
  fun _ _ _ w =>
    (Ret (Some (errs (count_user "attempt" (trace w)))),
     emit (EvUser "attempt") w).

Definition failing_streamer (errs : nat -> Error) : grpc.Streamer :=
  fun _ _ _ w =>
    (Ret (ANil, Some (errs (count_user "attempt" (trace w)))),
     emit (EvUser "attempt") w).

(** A caller-supplied client interceptor that leaves a mark and calls on. *)
Definition marking_unary (tag : string) : grpc.UnaryClientInterceptor :=
  fun ctx method req invoker =>
    tell (EvUser tag) ;;; invoker ctx method req.

Definition marking_stream (tag : string) : grpc.StreamClientInterceptor :=
  fun ctx desc method streamer =>
    tell (EvUser tag) ;;; streamer ctx desc method.

(** The world after [n] more rounds of waiting [d] and attempting. *)
Fixpoint after_retries (d : Z) (n : nat) (w : World) : World :=
  match n with
  | O => w
  | S n' =>
      after_retries d n' (emit (EvUser "attempt") (emit (EvSleep d) (advance d w)))
  end.

(** The options the interceptors of [NewGRPCConn] run with. *)
Definition retryCallOpts `{Platform} (o : client.clientOptions) : grpc_retry.options :=
  grpc_retry.reuseOrNewWithCallOptions grpc_retry.defaultOptions
    (client.retryOpts o).

(** A transient failure, as the default retriable codes have it. *)
Definition transient (e : Error) : Prop :=
  status.Code (Some e) = codes.Unavailable
  \/ status.Code (Some e) = codes.ResourceExhausted.

(** ** Inputs of the concrete runs *)

Definition app_logger : zap.Logger := zap.mkLogger (Core "app") [].

Definition call_info : grpc.UnaryServerInfo := grpc.mkUnaryServerInfo ANil "/svc/Call".

Definition watch_info : grpc.StreamServerInfo :=
  grpc.mkStreamServerInfo "/svc/Watch" false true.

Definition watch_stream : grpc.ServerStream :=
  grpc.mkServerStream context.Background ANil.

Definition watch_desc : grpc.StreamDesc := grpc.mkStreamDesc "Watch" true false.

Definition unavailable : Error :=
  mkError (Some codes.Unavailable) "rpc error: code = Unavailable desc = down".

(** Handlers that fail with Internal, and handlers that panic. *)
Definition internal_unary : grpc.UnaryHandler :=
  fun _ _ => ret (ANil, status.Error_ codes.Internal "boom").

Definition internal_stream : grpc.StreamHandler :=
  fun _ _ => ret (status.Error_ codes.Internal "boom").

Definition panicking_unary (v : Any) : grpc.UnaryHandler :=
  fun _ _ => panic v.

Definition panicking_stream (v : Any) : grpc.StreamHandler :=
  fun _ _ => panic v.

(** Caller-supplied server interceptors: one that leaves a mark on the way
    in and on the way out, one that leaves a mark and panics. *)
Definition marking_server_unary (tag : string) : grpc.UnaryServerInterceptor :=
  fun ctx req info handler =>
    tell (EvUser (tag ++ ":in")) ;;;
    r <- handler ctx req ;;
    tell (EvUser (tag ++ ":out")) ;;;
    ret r.

Definition faulting_server_unary (tag : string) (v : Any)
  : grpc.UnaryServerInterceptor :=
  fun ctx req info handler => tell (EvUser (tag ++ ":in")) ;;; panic v.

Definition marking_server_stream (tag : string) : grpc.StreamServerInterceptor :=
  fun srv ss info handler =>
    tell (EvUser (tag ++ ":in")) ;;;
    r <- handler srv ss ;;
    tell (EvUser (tag ++ ":out")) ;;;
    ret r.

Definition faulting_server_stream (tag : string) (v : Any)
  : grpc.StreamServerInterceptor :=
  fun srv ss info handler => tell (EvUser (tag ++ ":in")) ;;; panic v.

(** The server a list of options builds on the demo platform, when it
    builds one. *)
Definition built_server (options : list server.ServerOption) (w : World)
  : grpc.Server :=
  match fst (@server.NewGRPCServer demo_platform options w) with
  | Ret (Some s, _) => s
  | _ => grpc.mkServer None None None
  end.

Definition plain_options : list server.ServerOption :=
  [server.ServerLogger app_logger].

Definition chain_options : list server.ServerOption :=
  [server.ServerLogger app_logger;
   server.UnaryServerInterceptors
     [marking_server_unary "A"; faulting_server_unary "B" (AStr "oops")];
   server.StreamServerInterceptors
     [marking_server_stream "A"; faulting_server_stream "B" (AStr "oops")]].

(** A server that is given a CA bundle and nothing else. *)
Definition ca_only_options : list server.ServerOption :=
  [server.ServerCredentials (server.mkServerCredentialsConfig "ca.pem" "" "")].

(** A client told to be insecure although it names TLS material. *)
Definition insecure_options : list client.ClientOption :=
  [client.ClientCredentials
     (client.mkClientCredentialsConfig "ca.pem" "cert.pem" "key.pem" "example" false);
   client.ClientCInsecure].

(** Client options with [retryMax = n]. *)
Definition retrying (n : nat) : client.clientOptions :=
  client.applyClientOptions [client.ClientCInsecure; client.ClientRetryMax n].

(** A client with [retryMax = 3] and one caller-supplied interceptor of
    each kind. *)
Definition retry_client_options : list client.ClientOption :=
  [client.ClientCInsecure;
   client.ClientRetryMax 3;
   client.UnaryClientInterceptors [marking_unary "caller"];
   client.StreamClientInterceptors [marking_stream "caller"]].

(** ** Vocabulary of the further properties *)



(** A world whose disk holds a CA bundle, a certificate and a key. *)
Definition tls_world : World :=
  {| now := 0;
     files := fun p =>
       if String.eqb p "ca.pem" then Some [Byte.x2d]
       else if String.eqb p "cert.pem" then Some [Byte.x43]
       else if String.eqb p "key.pem" then Some [Byte.x4b]
       else None;
     trace := [] |}.

(** A field extractor that reads one value of the context. *)
Definition value_field (key : string) : interceptor.LoggerFeild :=
  fun ctx =>
    zapcore.mkField key
      match find (fun kv => String.eqb (fst kv) key) (ctx_values ctx) with
      | Some kv => snd kv
      | None => ANil
      end.

(** A context that carries a request id. *)
Definition request_ctx : Context :=
  {| ctx_values := [("request-id", AStr "42")]; ctx_Err := fun _ => None |}.

Definition request_stream : grpc.ServerStream :=
  grpc.mkServerStream request_ctx ANil.

(** An error that carries no gRPC status. *)
Definition plain_error : Error := mkError None "disk full".

(** Handlers that answer, taking 5 ms. *)
Definition answering_unary (resp : Any) (err : error) : grpc.UnaryHandler :=
  fun _ _ w => (Ret (resp, err), advance 5000000 w).

Definition answering_stream (err : error) : grpc.StreamHandler :=
  fun _ _ w => (Ret err, advance 5000000 w).

(** A server with the logging interceptors of the package as the caller's
    interceptors. *)
Definition logging_options : list server.ServerOption :=
  [server.ServerLogger app_logger;
   server.UnaryServerInterceptors
     [@interceptor.UnaryServerInterceptor demo_platform app_logger
        [value_field "request-id"]];
   server.StreamServerInterceptors
     [@interceptor.StreamServerInterceptor demo_platform app_logger
        [value_field "request-id"]]].

(** A transport that fails the first [k] attempts of a run and then
    succeeds: attempt number [i] fails with [errs i] when [i < k]. *)
Definition flaky_invoker (k : nat) (errs : nat -> Error) : grpc.UnaryInvoker :=
  fun _ _ _ w =>
    (Ret (if Nat.ltb (count_user "attempt" (trace w)) k
          then Some (errs (count_user "attempt" (trace w)))
          else None),
     emit (EvUser "attempt") w).

(** A failure that is no business of the retry interceptor. *)
Definition invalid_argument : Error :=
  mkError (Some codes.InvalidArgument)
    "rpc error: code = InvalidArgument desc = bad request".

(** A world whose CA bundle holds no certificate. *)
Definition bad_ca_world : World :=
  {| now := 0;
     files := fun p => if String.eqb p "ca.pem" then Some [] else None;
     trace := [] |}.

(** Server configurations: a key pair only, everything, a certificate
    only. *)
Definition pair_options : list server.ServerOption :=
  [server.ServerLogger app_logger;
   server.ServerCredentials
     (server.mkServerCredentialsConfig "" "cert.pem" "key.pem")].

Definition mutual_options : list server.ServerOption :=
  [server.ServerLogger app_logger;
   server.ServerCredentials
     (server.mkServerCredentialsConfig "ca.pem" "cert.pem" "key.pem")].

Definition cert_only_options : list server.ServerOption :=
  [server.ServerCredentials (server.mkServerCredentialsConfig "" "cert.pem" "")].

(** Client configurations: a certificate without a key, a CA only, a key
    pair only, everything. *)
Definition cert_only_client : list client.ClientOption :=
  [client.ClientCredentials
     (client.mkClientCredentialsConfig "" "cert.pem" "" "example" false)].

Definition ca_only_client : list client.ClientOption :=
  [client.ClientCredentials
     (client.mkClientCredentialsConfig "ca.pem" "" "" "example" false)].

Definition pair_only_client : list client.ClientOption :=
  [client.ClientCredentials
     (client.mkClientCredentialsConfig "" "cert.pem" "key.pem" "example" false)].

Definition full_client : list client.ClientOption :=
  [client.ClientCredentials
     (client.mkClientCredentialsConfig "ca.pem" "cert.pem" "key.pem" "example" false)].

(** The connection a list of options builds on the demo platform, when it
    builds one. *)
Definition built_conn (address : string) (opts : list client.ClientOption)
           (w : World) : grpc.ClientConn :=
  match fst (@client.NewGRPCConn demo_platform address opts w) with
  | Ret (Some cc, _) => cc
  | _ => grpc.mkClientConn "" grpc.defaultDialOptions
  end.

Unset Implicit Arguments.

(** * Properties *)

(** ** Reading a trace *)

Lemma logged_app (a b : list Event) : logged (a ++ b) = (logged a ++ logged b)%list.
Proof.
  induction a as [|e a IH]; simpl; [reflexivity|].
  destruct e; simpl; rewrite IH; reflexivity.
Qed.

Lemma reads_app (a b : list Event) : reads (a ++ b) = (reads a ++ reads b)%list.
Proof.
  induction a as [|e a IH]; simpl; [reflexivity|].
  destruct e; simpl; rewrite IH; reflexivity.
Qed.

Lemma sleeps_app (a b : list Event) : sleeps (a ++ b) = (sleeps a ++ sleeps b)%list.
Proof.
  induction a as [|e a IH]; simpl; [reflexivity|].
  destruct e; simpl; rewrite IH; reflexivity.
Qed.

Lemma count_user_app tag (a b : list Event) :
  count_user tag (a ++ b) = (count_user tag a + count_user tag b)%nat.
Proof.
  induction a as [|e a IH]; simpl; [reflexivity|].
  destruct e; simpl; try apply IH.
  destruct (String.eqb tag0 tag); simpl; rewrite IH; reflexivity.
Qed.

(** ** The logging interceptors *)

Section LoggingProperties.
Context `{Platform}.

Lemma is_alarming_iff err :
  is_alarming err = true <->
  status.Code err = codes.Internal \/ status.Code err = codes.Unavailable.
Proof.
  unfold is_alarming. rewrite orb_true_iff, !N.eqb_eq. reflexivity.
Qed.

(** What the unary interceptor does around a handler that returns. *)
Lemma unary_logging_run logger opts ctx req info handler w resp err w' :
  handler ctx req w = (Ret (resp, err), w') ->
  interceptor.UnaryServerInterceptor logger opts ctx req info handler w =
  (Ret (resp, err),
   emit (EvLog (zap.core logger)
           (zapcore.mkEntry
              (if is_alarming err then zapcore.ErrorLevel else zapcore.InfoLevel)
              (interceptor.log_message (now w) (now w')
                 (grpc.usi_FullMethod info) (status.Code err) err)
              (zap.context_ logger ++ interceptor.applyLoggerFeilds ctx opts)%list))
     w').
Proof.
  intros Hh.
  unfold interceptor.UnaryServerInterceptor, bind, time_Now, ret.
  rewrite Hh. unfold is_alarming.
  destruct (N.eqb (status.Code err) codes.Internal
            || N.eqb (status.Code err) codes.Unavailable); reflexivity.
Qed.

Lemma stream_logging_run logger opts srv stream info handler w err w' :
  handler srv stream w = (Ret err, w') ->
  interceptor.StreamServerInterceptor logger opts srv stream info handler w =
  (Ret err,
   emit (EvLog (zap.core logger)
           (zapcore.mkEntry
              (if is_alarming err then zapcore.ErrorLevel else zapcore.InfoLevel)
              (interceptor.log_message (now w) (now w')
                 (grpc.ssi_FullMethod info) (status.Code err) err)
              (zap.context_ logger
               ++ interceptor.applyLoggerFeilds (grpc.ss_Context stream) opts)%list))
     w').
Proof.
  intros Hh.
  unfold interceptor.StreamServerInterceptor, bind, time_Now, ret.
  rewrite Hh. unfold is_alarming.
  destruct (N.eqb (status.Code err) codes.Internal
            || N.eqb (status.Code err) codes.Unavailable); reflexivity.
Qed.

(** A panic of the handler passes through both interceptors; nothing is
    logged. *)
Lemma unary_logging_panic logger opts ctx req info handler w v w' :
  handler ctx req w = (Panic v, w') ->
  interceptor.UnaryServerInterceptor logger opts ctx req info handler w =
  (Panic v, w').
Proof.
  intros Hh.
  unfold interceptor.UnaryServerInterceptor, bind, time_Now. rewrite Hh.
  reflexivity.
Qed.

Lemma stream_logging_panic logger opts srv stream info handler w v w' :
  handler srv stream w = (Panic v, w') ->
  interceptor.StreamServerInterceptor logger opts srv stream info handler w =
  (Panic v, w').
Proof.
  intros Hh.
  unfold interceptor.StreamServerInterceptor, bind, time_Now. rewrite Hh.
  reflexivity.
Qed.

(** C4.  A call that ends with error [err] gets exactly one log record
    from the unary and from the streaming logging interceptor: the events
    after the call are those of the handler followed by that record.  Its
    level is Error exactly when the status code of [err] is Internal or
    Unavailable, and Info exactly when it is any other code, OK for a nil
    error included. *)
Theorem logging_severity_by_status :
  forall (logger : zap.Logger) (opts : list interceptor.LoggerFeild),
    (forall ctx req info handler w resp err w',
        handler ctx req w = (Ret (resp, err), w') ->
        exists entry,
          trace (snd (interceptor.UnaryServerInterceptor
                        logger opts ctx req info handler w))
          = (trace w' ++ [EvLog (zap.core logger) entry])%list
          /\ (zapcore.Level_ entry = zapcore.ErrorLevel <->
              status.Code err = codes.Internal
              \/ status.Code err = codes.Unavailable)
          /\ (zapcore.Level_ entry = zapcore.InfoLevel <->
              ~ (status.Code err = codes.Internal
                 \/ status.Code err = codes.Unavailable)))
    /\
    (forall srv stream info handler w err w',
        handler srv stream w = (Ret err, w') ->
        exists entry,
          trace (snd (interceptor.StreamServerInterceptor
                        logger opts srv stream info handler w))
          = (trace w' ++ [EvLog (zap.core logger) entry])%list
          /\ (zapcore.Level_ entry = zapcore.ErrorLevel <->
              status.Code err = codes.Internal
              \/ status.Code err = codes.Unavailable)
          /\ (zapcore.Level_ entry = zapcore.InfoLevel <->
              ~ (status.Code err = codes.Internal
                 \/ status.Code err = codes.Unavailable))).
Proof.
  intros logger opts; split.
  - intros ctx req info handler w resp err w' Hh.
    rewrite (@unary_logging_run logger opts ctx req info handler w resp err w' Hh).
    eexists; split; [reflexivity|]. simpl.
    rewrite <- is_alarming_iff.
    destruct (is_alarming err); split; split; intros; congruence.
  - intros srv stream info handler w err w' Hh.
    rewrite (@stream_logging_run logger opts srv stream info handler w err w' Hh).
    eexists; split; [reflexivity|]. simpl.
    rewrite <- is_alarming_iff.
    destruct (is_alarming err); split; split; intros; congruence.
Qed.

(** C10.  Whatever the handler does, return a response and an error or
    panic, the unary and the streaming logging interceptor end the same
    way: the response and the error are the handler's own. *)
Theorem logging_preserves_result :
  forall (logger : zap.Logger) (opts : list interceptor.LoggerFeild),
    (forall ctx req info handler w,
        fst (interceptor.UnaryServerInterceptor
               logger opts ctx req info handler w)
        = fst (handler ctx req w))
    /\
    (forall srv stream info handler w,
        fst (interceptor.StreamServerInterceptor
               logger opts srv stream info handler w)
        = fst (handler srv stream w)).
Proof.
  intros logger opts; split.
  - intros ctx req info handler w.
    destruct (handler ctx req w) as [[[resp err]|v] w'] eqn:Hh.
    + rewrite (@unary_logging_run logger opts ctx req info handler w resp err w' Hh). reflexivity.
    + rewrite (@unary_logging_panic logger opts ctx req info handler w v w' Hh). reflexivity.
  - intros srv stream info handler w.
    destruct (handler srv stream w) as [[err|v] w'] eqn:Hh.
    + rewrite (@stream_logging_run logger opts srv stream info handler w err w' Hh). reflexivity.
    + rewrite (@stream_logging_panic logger opts srv stream info handler w v w' Hh). reflexivity.
Qed.
End LoggingProperties.

(** ** The server *)

(** One step of case analysis on whatever a monadic run scrutinises. *)
Ltac step_run :=
  match goal with
  | H : context [match ?x with _ => _ end] |- _ =>
      lazymatch x with
      | context [match _ with _ => _ end] => fail
      | _ => destruct x eqn:?
      end
  | H : (_, _) = (_, _) |- _ => inversion H; subst; clear H
  | H : Ret _ = Ret _ |- _ => inversion H; subst; clear H
  | H : inl _ = inr _ |- _ => discriminate H
  | H : inr _ = inl _ |- _ => discriminate H
  end.

Section ServerProperties.
Context `{Platform}.

Lemma unaryRecovery_ret o ctx req info (h : grpc.UnaryHandler) w r w' :
  h ctx req w = (Ret r, w') ->
  unaryRecovery o ctx req info h w = (Ret r, w').
Proof.
  intros Hh. unfold unaryRecovery, grpc_recovery.UnaryServerInterceptor, recovering.
  rewrite Hh. reflexivity.
Qed.

Lemma unaryRecovery_panic o ctx req info (h : grpc.UnaryHandler) w v w' :
  h ctx req w = (Panic v, w') ->
  unaryRecovery o ctx req info h w
  = (Ret (ANil, None), emit (recovered_entry o v) w').
Proof.
  intros Hh. unfold unaryRecovery, grpc_recovery.UnaryServerInterceptor, recovering.
  rewrite Hh. reflexivity.
Qed.

Lemma streamRecovery_ret o srv ss info (h : grpc.StreamHandler) w r w' :
  h srv ss w = (Ret r, w') ->
  streamRecovery o srv ss info h w = (Ret r, w').
Proof.
  intros Hh. unfold streamRecovery, grpc_recovery.StreamServerInterceptor, recovering.
  rewrite Hh. reflexivity.
Qed.

Lemma streamRecovery_panic o srv ss info (h : grpc.StreamHandler) w v w' :
  h srv ss w = (Panic v, w') ->
  streamRecovery o srv ss info h w
  = (Ret None, emit (recovered_entry o v) w').
Proof.
  intros Hh. unfold streamRecovery, grpc_recovery.StreamServerInterceptor, recovering.
  rewrite Hh. reflexivity.
Qed.

(** The credentials stage leaves no option or one [Creds] option. *)
Lemma serverCreds_opts o w opts w' :
  server.serverCreds o w = (Ret (inr opts), w') ->
  opts = [] \/ exists tc, opts = [grpc.Creds tc].
Proof.
  unfold server.serverCreds, credentials.NewServerTLSFromFile,
    tls.LoadX509KeyPair, ioutil.ReadFile, x509.AppendCertsFromPEM,
    zap.Info, zap.log, tell, bind, ret.
  intros Hrun.
  repeat step_run; simpl in *; eauto.
Qed.

(** A server that was built has the two chains as its interceptors, each
    with the recovery interceptor at the head of the list. *)
Lemma NewGRPCServer_interceptors options w srv e w' :
  server.NewGRPCServer options w = (Ret (Some srv, e), w') ->
  let o := server.applyServerOptions options in
  grpc.srv_unaryInt srv
  = Some (grpc_middleware.ChainUnaryServer
            (unaryRecovery o :: server.unaryInterceptors o))
  /\ grpc.srv_streamInt srv
     = Some (grpc_middleware.ChainStreamServer
               (streamRecovery o :: server.streamInterceptors o)).
Proof.
  intros Hrun o. unfold server.NewGRPCServer, bind in Hrun.
  fold o in Hrun.
  destruct (server.serverCreds o w) as [[[e0|opts]|v] w1] eqn:Hc;
    try discriminate.
  destruct (serverCreds_opts _ _ _ _ Hc) as [->|[tc ->]];
    simpl in Hrun; unfold ret in Hrun; inversion Hrun; subst;
    split; reflexivity.
Qed.

Lemma chain_unary_server_cons i us ctx req info (h : grpc.UnaryHandler) :
  grpc_middleware.ChainUnaryServer (i :: us) ctx req info h
  = i ctx req info
      (fun c r => grpc_middleware.ChainUnaryServer us c r info h).
Proof. reflexivity. Qed.

Lemma chain_stream_server_cons i us srv ss info (h : grpc.StreamHandler) :
  grpc_middleware.ChainStreamServer (i :: us) srv ss info h
  = i srv ss info
      (fun s t => grpc_middleware.ChainStreamServer us s t info h).
Proof. reflexivity. Qed.

(** C2.  On a server built by [NewGRPCServer], a call whose handler
    (with the caller's interceptors around it, if any) panics with the
    value [v] ends normally with a nil response and a nil error, and the
    only trace the fault leaves is one record of level Error, written to
    the server's logger, whose field [err] holds [v].  The same holds for
    streaming calls. *)
Theorem recovery_logs_fault_and_returns_nil :
  forall options w0 srv w1,
    server.NewGRPCServer options w0 = (Ret (Some srv, None), w1) ->
    let o := server.applyServerOptions options in
    (forall ctx req info handler w v w',
        grpc_middleware.ChainUnaryServer (server.unaryInterceptors o)
          ctx req info handler w = (Panic v, w') ->
        grpc.serveUnary srv ctx req info handler w
        = (Ret (ANil, None),
           emit (EvLog (zap.core (server.logger o))
                   (zapcore.mkEntry zapcore.ErrorLevel
                      "recover unkown execption"
                      (zap.context_ (server.logger o)
                       ++ [zapcore.mkField "err" v])%list)) w'))
    /\
    (forall srv_ stream info handler w v w',
        grpc_middleware.ChainStreamServer (server.streamInterceptors o)
          srv_ stream info handler w = (Panic v, w') ->
        grpc.serveStream srv srv_ stream info handler w
        = (Ret None,
           emit (EvLog (zap.core (server.logger o))
                   (zapcore.mkEntry zapcore.ErrorLevel
                      "recover unkown execption"
                      (zap.context_ (server.logger o)
                       ++ [zapcore.mkField "err" v])%list)) w')).
Proof.
  intros options w0 srv w1 Hnew o.
  destruct (NewGRPCServer_interceptors _ _ _ _ _ Hnew) as [Hu Hs].
  fold o in Hu, Hs. split.
  - intros ctx req info handler w v w' Hp.
    unfold grpc.serveUnary. rewrite Hu, chain_unary_server_cons.
    apply unaryRecovery_panic; exact Hp.
  - intros srv_ stream info handler w v w' Hp.
    unfold grpc.serveStream. rewrite Hs, chain_stream_server_cons.
    apply streamRecovery_panic; exact Hp.
Qed.

(** C3.  On a server built by [NewGRPCServer] with the caller's
    interceptors [A; B] (and [SA; SB] for streams), a call runs the
    recovery interceptor around [A] around [B] around the handler: [B]
    runs only as the handler that [A] is given.  A fault that comes out of
    [B] and that [A] lets through is caught by the recovery interceptor,
    which logs it and returns nil, and no call through the chain ends in a
    panic. *)
Theorem server_chain_recovery_outermost :
  forall options A B SA SB w0 srv w1,
    server.NewGRPCServer options w0 = (Ret (Some srv, None), w1) ->
    let o := server.applyServerOptions options in
    server.unaryInterceptors o = [A; B] ->
    server.streamInterceptors o = [SA; SB] ->
    (forall ctx req info handler w,
        let inner : grpc.UnaryHandler :=
          fun c r => A c r info (fun c' r' => B c' r' info handler) in
        grpc.serveUnary srv ctx req info handler w
        = unaryRecovery o ctx req info inner w
        /\ (forall v w', inner ctx req w = (Panic v, w') ->
            grpc.serveUnary srv ctx req info handler w
            = (Ret (ANil, None), emit (recovered_entry o v) w'))
        /\ (forall v w',
            grpc.serveUnary srv ctx req info handler w <> (Panic v, w')))
    /\
    (forall srv_ stream info handler w,
        let inner : grpc.StreamHandler :=
          fun s t => SA s t info (fun s' t' => SB s' t' info handler) in
        grpc.serveStream srv srv_ stream info handler w
        = streamRecovery o srv_ stream info inner w
        /\ (forall v w', inner srv_ stream w = (Panic v, w') ->
            grpc.serveStream srv srv_ stream info handler w
            = (Ret None, emit (recovered_entry o v) w'))
        /\ (forall v w',
            grpc.serveStream srv srv_ stream info handler w <> (Panic v, w'))).
Proof.
  intros options A B SA SB w0 srv w1 Hnew o HU HS.
  destruct (NewGRPCServer_interceptors _ _ _ _ _ Hnew) as [Hu Hs].
  fold o in Hu, Hs. rewrite HU in Hu. rewrite HS in Hs. split.
  - intros ctx req info handler w inner.
    assert (Heq : grpc.serveUnary srv ctx req info handler w
                  = unaryRecovery o ctx req info inner w)
      by (unfold grpc.serveUnary; rewrite Hu; reflexivity).
    split; [exact Heq|]. rewrite Heq. split.
    + intros v w' Hp. apply unaryRecovery_panic; exact Hp.
    + intros v w'.
      destruct (inner ctx req w) as [[r|v0] w2] eqn:Hi.
      * erewrite unaryRecovery_ret by exact Hi. discriminate.
      * erewrite unaryRecovery_panic by exact Hi. discriminate.
  - intros srv_ stream info handler w inner.
    assert (Heq : grpc.serveStream srv srv_ stream info handler w
                  = streamRecovery o srv_ stream info inner w)
      by (unfold grpc.serveStream; rewrite Hs; reflexivity).
    split; [exact Heq|]. rewrite Heq. split.
    + intros v w' Hp. apply streamRecovery_panic; exact Hp.
    + intros v w'.
      destruct (inner srv_ stream w) as [[r|v0] w2] eqn:Hi.
      * erewrite streamRecovery_ret by exact Hi. discriminate.
      * erewrite streamRecovery_panic by exact Hi. discriminate.
Qed.

(** C6, as the code has it.  With the CA, certificate and key paths all
    empty, [NewGRPCServer] returns a server and a nil error, the server
    has no transport credentials, no file is read, and the one event of
    the construction is the notice [No TLS keys, insecure mode], written
    to the server's logger at level Info. *)
Theorem server_without_tls_material :
  forall options w,
    let o := server.applyServerOptions options in
    server.CAPath (server.creds o) = "" ->
    server.CertPath (server.creds o) = "" ->
    server.KeyPath (server.creds o) = "" ->
    exists srv,
      server.NewGRPCServer options w
      = (Ret (Some srv, None),
         emit (EvLog (zap.core (server.logger o))
                 (zapcore.mkEntry zapcore.InfoLevel
                    "No TLS keys, insecure mode"
                    (zap.context_ (server.logger o)))) w)
      /\ grpc.srv_creds srv = None.
Proof.
  intros options w o Hca Hcert Hkey.
  unfold server.NewGRPCServer, server.serverCreds. fold o.
  rewrite Hca, Hcert, Hkey. simpl.
  eexists; split; reflexivity.
Qed.

(** Without a certificate path or without a key path no pair is loaded:
    the empty path cannot be read. *)
Lemma LoadX509KeyPair_missing cert key w :
  cert = "" \/ key = "" ->
  exists e w',
    tls.LoadX509KeyPair cert key w = (Ret (tls.zeroCertificate, Some e), w').
Proof.
  intros Hmissing.
  unfold tls.LoadX509KeyPair, bind, ioutil.ReadFile, ret.
  destruct Hmissing as [-> | ->]; simpl.
  - do 2 eexists; reflexivity.
  - destruct (if String.eqb cert "" then None else files w cert);
      simpl; do 2 eexists; reflexivity.
Qed.

(** C7, as the code has it.  With a CA path and without a certificate
    path or without a key path, [NewGRPCServer] returns no server and an
    error.  The CA file is read first: the error is CAUnreadable when the
    file cannot be read, CAInvalid when no certificate parses from it, and
    KeyPairInvalid when the CA file is good. *)
Theorem server_ca_without_key_pair_fails :
  forall options w,
    let c := server.creds (server.applyServerOptions options) in
    server.CAPath c <> "" ->
    server.CertPath c = "" \/ server.KeyPath c = "" ->
    exists e w',
      server.NewGRPCServer options w = (Ret (None, Some e), w')
      /\ credentialErrorKind e
         = Some match files w (server.CAPath c) with
                | None => CAUnreadable
                | Some pem =>
                    if AppendCertsFromPEM_ok pem then KeyPairInvalid
                    else CAInvalid
                end.
Proof.
  intros options w c Hca Hmissing.
  unfold server.NewGRPCServer, server.serverCreds. fold c.
  destruct c as [ca cert key]; simpl in *.
  apply String.eqb_neq in Hca. rewrite Hca. simpl.
  unfold bind at 1 2. unfold zap.Info, zap.log, tell.
  unfold bind at 1 2. unfold ioutil.ReadFile at 1. rewrite Hca. simpl files.
  destruct (files w ca) as [pem|] eqn:Hf;
    [|do 2 eexists; split; reflexivity].
  unfold x509.AppendCertsFromPEM.
  destruct (AppendCertsFromPEM_ok pem) eqn:Hok;
    [|do 2 eexists; split; reflexivity].
  cbn -[tls.LoadX509KeyPair]. unfold bind at 1.
  match goal with
  | |- context [tls.LoadX509KeyPair cert key ?w1] =>
      destruct (LoadX509KeyPair_missing cert key w1 Hmissing)
        as (e & w' & He); rewrite He
  end.
  do 2 eexists; split; reflexivity.
Qed.
End ServerProperties.

(** ** The client *)

Lemma after_retries_attempts d n w :
  count_user "attempt" (trace (after_retries d n w))
  = (count_user "attempt" (trace w) + n)%nat.
Proof.
  revert w; induction n as [|n IH]; intros w; simpl.
  - lia.
  - rewrite IH. simpl. rewrite !count_user_app. simpl. lia.
Qed.

Lemma after_retries_sleeps d n w :
  sleeps (trace (after_retries d n w)) = (sleeps (trace w) ++ repeat d n)%list.
Proof.
  revert w; induction n as [|n IH]; intros w; simpl.
  - rewrite app_nil_r. reflexivity.
  - rewrite IH. simpl. rewrite !sleeps_app. simpl.
    rewrite app_nil_r, <- app_assoc. reflexivity.
Qed.

Section ClientProperties.
Context `{Platform}.

(** The credentials stage leaves exactly one option, and it is not an
    interceptor. *)
Lemma clientCreds_opts o w opts w' :
  client.clientCreds o w = (Ret (inr opts), w') ->
  opts = [grpc.WithInsecure]
  \/ exists c, opts = [grpc.WithTransportCredentials (Some c)].
Proof.
  unfold client.clientCreds, tls.LoadX509KeyPair, ioutil.ReadFile,
    x509.AppendCertsFromPEM, credentials.NewTLS, bind, ret.
  intros Hrun.
  repeat step_run; simpl in *; eauto.
Qed.

(** The interceptors of a connection that was built: of the two options
    for each kind the later one has overwritten the earlier. *)
Lemma NewGRPCConn_interceptors address opts w cc e w' :
  client.NewGRPCConn address opts w = (Ret (Some cc, e), w') ->
  let o := client.applyClientOptions opts in
  grpc.unaryInt (grpc.dopts cc)
  = Some (grpc_middleware.ChainUnaryClient (client.unaryInterceptors o))
  /\ grpc.streamInt (grpc.dopts cc)
     = Some (grpc_middleware.ChainStreamClient (client.streamInterceptors o)).
Proof.
  intros Hrun o. unfold client.NewGRPCConn, bind in Hrun. fold o in Hrun.
  destruct (client.clientCreds o w) as [[[e0|options]|v] w1] eqn:Hc;
    try discriminate.
  destruct (clientCreds_opts _ _ _ _ Hc) as [->|[c ->]];
    unfold grpc.Dial in Hrun; simpl in Hrun;
    destruct (dial_target_err address); unfold ret in Hrun;
    inversion Hrun; subst; split; reflexivity.
Qed.

(** C8.  With [insecure = true], whatever the other credential fields
    hold, the credentials stage of [NewGRPCConn] yields the single option
    [WithInsecure] and builds no TLS configuration; the whole construction
    leaves the world as it was, so no file is read; and a connection that
    results has no transport credentials. *)
Theorem insecure_client_consults_no_tls_material :
  forall address opts w,
    let o := client.applyClientOptions opts in
    client.Insecure (client.creds o) = true ->
    client.clientCreds o w = (Ret (inr [grpc.WithInsecure]), w)
    /\ snd (client.NewGRPCConn address opts w) = w
    /\ reads (trace (snd (client.NewGRPCConn address opts w)))
       = reads (trace w)
    /\ (forall cc e w',
           client.NewGRPCConn address opts w = (Ret (Some cc, e), w') ->
           grpc.insecure (grpc.dopts cc) = true
           /\ grpc.TransportCredentials (grpc.dopts cc) = None).
Proof.
  intros address opts w o Hins.
  assert (Hc : client.clientCreds o w = (Ret (inr [grpc.WithInsecure]), w)).
  { unfold client.clientCreds. rewrite Hins. reflexivity. }
  assert (Hw : snd (client.NewGRPCConn address opts w) = w).
  { unfold client.NewGRPCConn, bind. fold o. rewrite Hc.
    unfold grpc.Dial. simpl.
    destruct (dial_target_err address); reflexivity. }
  split; [exact Hc|]. split; [exact Hw|]. split; [rewrite Hw; reflexivity|].
  intros cc e w' Hrun.
  unfold client.NewGRPCConn, bind in Hrun. fold o in Hrun. rewrite Hc in Hrun.
  unfold grpc.Dial in Hrun. simpl in Hrun.
  destruct (dial_target_err address); unfold ret in Hrun;
    inversion Hrun; subst; split; reflexivity.
Qed.

(** *** The retry interceptor on its own *)

Lemma retryCallOpts_eq o :
  retryCallOpts o
  = {| grpc_retry.max := client.retryMax o;
       grpc_retry.perCallTimeout := client.retryTimeout o;
       grpc_retry.includeHeader := true;
       grpc_retry.codes_ := grpc_retry.DefaultRetriableCodes;
       grpc_retry.backoffFunc := fun _ _ => time_Second |}.
Proof. reflexivity. Qed.

Lemma transient_retriable e o :
  transient e ->
  grpc_retry.isContextError (Some e) = false
  /\ grpc_retry.isRetriable (Some e) (retryCallOpts o) = true.
Proof.
  unfold transient, grpc_retry.isRetriable, grpc_retry.isContextError.
  intros [He | He]; rewrite He; split; reflexivity.
Qed.

Lemma perCallContext_world parentCtx callOpts attempt w :
  exists ctx, grpc_retry.perCallContext parentCtx callOpts attempt w = (Ret ctx, w).
Proof.
  unfold grpc_retry.perCallContext, context.WithTimeout, bind, ret.
  destruct (negb (grpc_retry.perCallTimeout callOpts =? 0));
    destruct (Nat.ltb 0 attempt && grpc_retry.includeHeader callOpts);
    eexists; reflexivity.
Qed.

(** The rounds of the loop after the first attempt, against a transport
    that keeps failing with transient errors, under a live parent. *)
Lemma unaryLoop_retries o parentCtx method req errs :
  (forall w, ctx_Err parentCtx w = None) ->
  (forall k, transient (errs k)) ->
  forall n attempt lastErr w,
    grpc_retry.unaryLoop (retryCallOpts o) parentCtx method req
      (failing_invoker errs) n (S attempt) lastErr w
    = (Ret match n with
           | O => lastErr
           | S n' => Some (errs (count_user "attempt" (trace w) + n')%nat)
           end,
       after_retries time_Second n w).
Proof.
  intros Hlive Htr.
  induction n as [|n IH]; intros attempt lastErr w; [reflexivity|].
  cbn [grpc_retry.unaryLoop].
  unfold bind at 1.
  assert (Hwait : grpc_retry.waitRetryBackoff (S attempt) parentCtx (retryCallOpts o) w
                  = (Ret None, emit (EvSleep time_Second) (advance time_Second w))).
  { unfold grpc_retry.waitRetryBackoff, grpc_retry.waitTime. simpl.
    rewrite Hlive. reflexivity. }
  rewrite Hwait. unfold bind at 1.
  destruct (perCallContext_world parentCtx (retryCallOpts o) (S attempt)
              (emit (EvSleep time_Second) (advance time_Second w))) as [c Hc].
  rewrite Hc. unfold bind at 1. unfold failing_invoker at 1.
  destruct (transient_retriable _ o (Htr (count_user "attempt"
     (trace (emit (EvSleep time_Second) (advance time_Second w))))))
    as [Hctx Hret].
  rewrite Hctx, Hret. cbn [negb].
  rewrite IH. simpl after_retries. f_equal.
  destruct n as [|n]; simpl; rewrite ?count_user_app; simpl;
    rewrite ?Nat.add_0_r;
    first [reflexivity | do 3 f_equal; lia].
Qed.

(** The whole run of the interceptor against such a transport. *)
Lemma retry_run o parentCtx method req errs w :
  (forall w, ctx_Err parentCtx w = None) ->
  (forall k, transient (errs k)) ->
  grpc_retry.UnaryClientInterceptor (client.retryOpts o) parentCtx method req
    (failing_invoker errs) w
  = (Ret (Some (errs (count_user "attempt" (trace w)
                      + (Nat.max (client.retryMax o) 1 - 1))%nat)),
     after_retries time_Second (Nat.max (client.retryMax o) 1 - 1)
       (emit (EvUser "attempt") w)).
Proof.
  intros Hlive Htr.
  unfold grpc_retry.UnaryClientInterceptor.
  change (grpc_retry.reuseOrNewWithCallOptions grpc_retry.defaultOptions
            (client.retryOpts o)) with (retryCallOpts o).
  cbv zeta.
  replace (grpc_retry.max (retryCallOpts o)) with (client.retryMax o)
    by reflexivity.
  destruct (client.retryMax o) as [|m] eqn:Hmax.
  - simpl. unfold failing_invoker. rewrite Nat.add_0_r. reflexivity.
  - cbn [Nat.eqb grpc_retry.unaryLoop]. unfold bind at 1.
    assert (Hwait : grpc_retry.waitRetryBackoff 0 parentCtx (retryCallOpts o) w
                    = (Ret None, w)) by reflexivity.
    rewrite Hwait. unfold bind at 1.
    destruct (perCallContext_world parentCtx (retryCallOpts o) 0 w) as [c Hc].
    rewrite Hc. unfold bind at 1. unfold failing_invoker at 1.
    destruct (transient_retriable _ o (Htr (count_user "attempt" (trace w))))
      as [Hctx Hret].
    rewrite Hctx, Hret. cbn [negb].
    rewrite unaryLoop_retries by assumption.
    replace (Nat.max (S m) 1 - 1)%nat with m by lia.
    f_equal.
    destruct m as [|m]; simpl; rewrite ?count_user_app; simpl;
      rewrite ?Nat.add_0_r;
    first [reflexivity | do 3 f_equal; lia].
Qed.

(** The same two facts for the streaming interceptor, for a method whose
    client side does not stream. *)
Lemma streamLoop_retries o parentCtx desc method errs :
  (forall w, ctx_Err parentCtx w = None) ->
  (forall k, transient (errs k)) ->
  forall n attempt lastErr w,
    grpc_retry.streamLoop (retryCallOpts o) parentCtx desc method
      (failing_streamer errs) n (S attempt) lastErr w
    = (Ret (ANil,
            match n with
            | O => lastErr
            | S n' => Some (errs (count_user "attempt" (trace w) + n')%nat)
            end),
       after_retries time_Second n w).
Proof.
  intros Hlive Htr.
  induction n as [|n IH]; intros attempt lastErr w; [reflexivity|].
  cbn [grpc_retry.streamLoop].
  unfold bind at 1.
  assert (Hwait : grpc_retry.waitRetryBackoff (S attempt) parentCtx (retryCallOpts o) w
                  = (Ret None, emit (EvSleep time_Second) (advance time_Second w))).
  { unfold grpc_retry.waitRetryBackoff, grpc_retry.waitTime. simpl.
    rewrite Hlive. reflexivity. }
  rewrite Hwait. unfold bind at 1.
  destruct (perCallContext_world parentCtx (retryCallOpts o) 0
              (emit (EvSleep time_Second) (advance time_Second w))) as [c Hc].
  rewrite Hc. unfold bind at 1. unfold failing_streamer at 1.
  destruct (transient_retriable _ o (Htr (count_user "attempt"
     (trace (emit (EvSleep time_Second) (advance time_Second w))))))
    as [Hctx Hret].
  rewrite Hctx, Hret. cbn [negb].
  rewrite IH. simpl after_retries. f_equal.
  destruct n as [|n]; simpl; rewrite ?count_user_app; simpl;
    rewrite ?Nat.add_0_r;
    first [reflexivity | do 4 f_equal; lia].
Qed.

Lemma stream_retry_run o parentCtx desc method errs w :
  (forall w, ctx_Err parentCtx w = None) ->
  (forall k, transient (errs k)) ->
  grpc.ClientStreams desc = false ->
  grpc_retry.StreamClientInterceptor (client.retryOpts o) parentCtx desc method
    (failing_streamer errs) w
  = (Ret (ANil,
          Some (errs (count_user "attempt" (trace w)
                      + (Nat.max (client.retryMax o) 1 - 1))%nat)),
     after_retries time_Second (Nat.max (client.retryMax o) 1 - 1)
       (emit (EvUser "attempt") w)).
Proof.
  intros Hlive Htr Hdesc.
  unfold grpc_retry.StreamClientInterceptor.
  change (grpc_retry.reuseOrNewWithCallOptions grpc_retry.defaultOptions
            (client.retryOpts o)) with (retryCallOpts o).
  cbv zeta. rewrite Hdesc.
  replace (grpc_retry.max (retryCallOpts o)) with (client.retryMax o)
    by reflexivity.
  destruct (client.retryMax o) as [|m] eqn:Hmax.
  - simpl. unfold failing_streamer. rewrite Nat.add_0_r. reflexivity.
  - cbn [Nat.eqb grpc_retry.streamLoop]. unfold bind at 1.
    assert (Hwait : grpc_retry.waitRetryBackoff 0 parentCtx (retryCallOpts o) w
                    = (Ret None, w)) by reflexivity.
    rewrite Hwait. unfold bind at 1.
    destruct (perCallContext_world parentCtx (retryCallOpts o) 0 w) as [c Hc].
    rewrite Hc. unfold bind at 1. unfold failing_streamer at 1.
    destruct (transient_retriable _ o (Htr (count_user "attempt" (trace w))))
      as [Hctx Hret].
    rewrite Hctx, Hret. cbn [negb].
    rewrite streamLoop_retries by assumption.
    replace (Nat.max (S m) 1 - 1)%nat with m by lia.
    f_equal.
    destruct m as [|m]; simpl; rewrite ?count_user_app; simpl;
      rewrite ?Nat.add_0_r;
      first [reflexivity | do 4 f_equal; lia].
Qed.

(** C5, as the code has it.  Against a transport that fails every
    attempt with a transient error, under a parent context that stays
    live, the retry interceptors that [NewGRPCConn] configures with
    [retryMax = N] make [N] attempts when [N >= 1] and one attempt when
    [N = 0], and return the error of the last attempt as it is.  (The
    streaming interceptor: for methods whose client side does not
    stream.) *)
Theorem retry_attempts_on_persistent_failure :
  forall o parentCtx method errs w,
    (forall w', ctx_Err parentCtx w' = None) ->
    (forall k, transient (errs k)) ->
    let attempts := Nat.max (client.retryMax o) 1 in
    let k0 := count_user "attempt" (trace w) in
    (forall req,
        let run := grpc_retry.UnaryClientInterceptor (client.retryOpts o)
                     parentCtx method req (failing_invoker errs) w in
        count_user "attempt" (trace (snd run)) = (k0 + attempts)%nat
        /\ fst run = Ret (Some (errs (k0 + attempts - 1)%nat)))
    /\
    (forall desc,
        grpc.ClientStreams desc = false ->
        let run := grpc_retry.StreamClientInterceptor (client.retryOpts o)
                     parentCtx desc method (failing_streamer errs) w in
        count_user "attempt" (trace (snd run)) = (k0 + attempts)%nat
        /\ fst run = Ret (ANil, Some (errs (k0 + attempts - 1)%nat))).
Proof.
  intros o parentCtx method errs w Hlive Htr attempts k0. split.
  - intros req run. subst run.
    rewrite retry_run by assumption. cbn [fst snd].
    rewrite after_retries_attempts. simpl trace. rewrite count_user_app.
    simpl. fold k0. fold attempts. split.
    + subst attempts. lia.
    + do 3 f_equal. subst attempts. lia.
  - intros desc Hdesc run. subst run.
    rewrite stream_retry_run by assumption. cbn [fst snd].
    rewrite after_retries_attempts. simpl trace. rewrite count_user_app.
    simpl. fold k0. fold attempts. split.
    + subst attempts. lia.
    + do 4 f_equal. subst attempts. lia.
Qed.

(** C9, as the code has it.  The wait before attempt number [i] of the
    retry interceptors that [NewGRPCConn] configures is one second for
    every [i >= 1], whatever [i] is, and there is no wait before the
    first attempt.  In a run against a transport that keeps failing with
    transient errors every wait between two attempts is one second. *)
Theorem retry_backoff_is_one_second :
  forall o parentCtx,
    (forall i, (0 < i)%nat ->
               grpc_retry.waitTime parentCtx (retryCallOpts o) i = time_Second)
    /\ grpc_retry.waitTime parentCtx (retryCallOpts o) 0 = 0
    /\ (forall method req errs w,
           (forall w', ctx_Err parentCtx w' = None) ->
           (forall k, transient (errs k)) ->
           sleeps (trace (snd (grpc_retry.UnaryClientInterceptor
                                 (client.retryOpts o) parentCtx method req
                                 (failing_invoker errs) w)))
           = (sleeps (trace w)
              ++ repeat time_Second (Nat.max (client.retryMax o) 1 - 1))%list).
Proof.
  intros o parentCtx. split; [|split].
  - intros i Hi. unfold grpc_retry.waitTime.
    destruct i as [|i]; [lia|]. reflexivity.
  - reflexivity.
  - intros method req errs w Hlive Htr.
    rewrite retry_run by assumption. cbn [snd].
    rewrite after_retries_sleeps. simpl trace. rewrite sleeps_app.
    simpl. rewrite app_nil_r. reflexivity.
Qed.
End ClientProperties.

(** * Concrete runs *)

(** The chain at work: [A] enters, then [B] enters and panics; [A] never
    leaves, and the recovery interceptor ends the call with its record. *)
Example server_chain_trace :
  grpc.serveUnary (built_server chain_options empty_world)
    context.Background ANil call_info internal_unary empty_world
  = (Ret (ANil, None),
     {| now := 0; files := files empty_world;
        trace := [EvUser "A:in"; EvUser "B:in";
                  EvLog (Core "app")
                    (zapcore.mkEntry zapcore.ErrorLevel "recover unkown execption"
                       [zapcore.mkField "err" (AStr "oops")])] |}).
Proof. reflexivity. Qed.

(** C4 at work: a unary and a streaming call that end with Internal. *)
Lemma logging_severity_by_status_witness :
  (internal_unary context.Background ANil empty_world
   = (Ret (ANil, status.Error_ codes.Internal "boom"), empty_world)
   /\ exists entry,
       trace (snd (@interceptor.UnaryServerInterceptor demo_platform app_logger []
                     context.Background ANil call_info internal_unary empty_world))
       = (trace empty_world ++ [EvLog (zap.core app_logger) entry])%list
       /\ (zapcore.Level_ entry = zapcore.ErrorLevel <->
           status.Code (status.Error_ codes.Internal "boom") = codes.Internal
           \/ status.Code (status.Error_ codes.Internal "boom") = codes.Unavailable)
       /\ (zapcore.Level_ entry = zapcore.InfoLevel <->
           ~ (status.Code (status.Error_ codes.Internal "boom") = codes.Internal
              \/ status.Code (status.Error_ codes.Internal "boom") = codes.Unavailable)))
  /\
  (internal_stream ANil watch_stream empty_world
   = (Ret (status.Error_ codes.Internal "boom"), empty_world)
   /\ exists entry,
       trace (snd (@interceptor.StreamServerInterceptor demo_platform app_logger []
                     ANil watch_stream watch_info internal_stream empty_world))
       = (trace empty_world ++ [EvLog (zap.core app_logger) entry])%list
       /\ (zapcore.Level_ entry = zapcore.ErrorLevel <->
           status.Code (status.Error_ codes.Internal "boom") = codes.Internal
           \/ status.Code (status.Error_ codes.Internal "boom") = codes.Unavailable)
       /\ (zapcore.Level_ entry = zapcore.InfoLevel <->
           ~ (status.Code (status.Error_ codes.Internal "boom") = codes.Internal
              \/ status.Code (status.Error_ codes.Internal "boom") = codes.Unavailable))).
Proof.
  split; (split; [reflexivity|]).
  - exact (proj1 (@logging_severity_by_status demo_platform app_logger [])
             context.Background ANil call_info internal_unary empty_world
             ANil (status.Error_ codes.Internal "boom") empty_world eq_refl).
  - exact (proj2 (@logging_severity_by_status demo_platform app_logger [])
             ANil watch_stream watch_info internal_stream empty_world
             (status.Error_ codes.Internal "boom") empty_world eq_refl).
Defined.

(** C2 at work: a unary and a streaming handler that panic with [oops]. *)
Lemma recovery_logs_fault_and_returns_nil_witness :
  @server.NewGRPCServer demo_platform plain_options empty_world
  = (Ret (Some (built_server plain_options empty_world), None),
     snd (@server.NewGRPCServer demo_platform plain_options empty_world))
  /\ (panicking_unary (AStr "oops") context.Background ANil empty_world
      = (Panic (AStr "oops"), empty_world)
      /\ grpc.serveUnary (built_server plain_options empty_world)
           context.Background ANil call_info (panicking_unary (AStr "oops"))
           empty_world
         = (Ret (ANil, None),
            emit (EvLog (Core "app")
                    (zapcore.mkEntry zapcore.ErrorLevel "recover unkown execption"
                       [zapcore.mkField "err" (AStr "oops")])) empty_world))
  /\ (panicking_stream (AStr "oops") ANil watch_stream empty_world
      = (Panic (AStr "oops"), empty_world)
      /\ grpc.serveStream (built_server plain_options empty_world)
           ANil watch_stream watch_info (panicking_stream (AStr "oops"))
           empty_world
         = (Ret None,
            emit (EvLog (Core "app")
                    (zapcore.mkEntry zapcore.ErrorLevel "recover unkown execption"
                       [zapcore.mkField "err" (AStr "oops")])) empty_world)).
Proof.
  split; [reflexivity|].
  split; (split; [reflexivity|]).
  - exact (proj1 (@recovery_logs_fault_and_returns_nil demo_platform
                    plain_options empty_world _ _ eq_refl)
             context.Background ANil call_info (panicking_unary (AStr "oops"))
             empty_world (AStr "oops") empty_world eq_refl).
  - exact (proj2 (@recovery_logs_fault_and_returns_nil demo_platform
                    plain_options empty_world _ _ eq_refl)
             ANil watch_stream watch_info (panicking_stream (AStr "oops"))
             empty_world (AStr "oops") empty_world eq_refl).
Defined.

(** C3 at work: the server built with a marking [A] and a faulting [B]. *)
Lemma server_chain_recovery_outermost_witness :
  @server.NewGRPCServer demo_platform chain_options empty_world
  = (Ret (Some (built_server chain_options empty_world), None),
     snd (@server.NewGRPCServer demo_platform chain_options empty_world))
  /\ server.unaryInterceptors (server.applyServerOptions chain_options)
     = [marking_server_unary "A"; faulting_server_unary "B" (AStr "oops")]
  /\ server.streamInterceptors (server.applyServerOptions chain_options)
     = [marking_server_stream "A"; faulting_server_stream "B" (AStr "oops")]
  /\ (grpc.serveUnary (built_server chain_options empty_world)
        context.Background ANil call_info internal_unary empty_world
      = unaryRecovery (server.applyServerOptions chain_options)
          context.Background ANil call_info
          (fun c r =>
             marking_server_unary "A" c r call_info
               (fun c' r' =>
                  faulting_server_unary "B" (AStr "oops") c' r' call_info
                    internal_unary))
          empty_world)
  /\ (grpc.serveStream (built_server chain_options empty_world)
        ANil watch_stream watch_info internal_stream empty_world
      = streamRecovery (server.applyServerOptions chain_options)
          ANil watch_stream watch_info
          (fun s t =>
             marking_server_stream "A" s t watch_info
               (fun s' t' =>
                  faulting_server_stream "B" (AStr "oops") s' t' watch_info
                    internal_stream))
          empty_world).
Proof.
  split; [reflexivity|]. split; [reflexivity|]. split; [reflexivity|].
  pose proof (@server_chain_recovery_outermost demo_platform chain_options
                (marking_server_unary "A") (faulting_server_unary "B" (AStr "oops"))
                (marking_server_stream "A") (faulting_server_stream "B" (AStr "oops"))
                empty_world _ _ eq_refl eq_refl eq_refl) as [HU HS].
  split.
  - exact (proj1 (HU context.Background ANil call_info internal_unary empty_world)).
  - exact (proj1 (HS ANil watch_stream watch_info internal_stream empty_world)).
Defined.

(** C6, as the claim states it, fails: built without any TLS material the
    server logs its notice at level Info, and nothing at level Warn. *)
Lemma server_no_tls_notice_is_not_a_warning :
  logged (trace (snd (@server.NewGRPCServer demo_platform plain_options empty_world)))
  = [zapcore.mkEntry zapcore.InfoLevel "No TLS keys, insecure mode" []]
  /\ ~ (exists e,
           In e (logged (trace (snd (@server.NewGRPCServer demo_platform
                                       plain_options empty_world))))
           /\ zapcore.Level_ e = zapcore.WarnLevel).
Proof.
  split; [reflexivity|].
  intros [e [[He|[]] Hl]]. subst e. discriminate Hl.
Qed.

(** C6 at work: a server configured with a logger only. *)
Lemma server_without_tls_material_witness :
  server.CAPath (server.creds (server.applyServerOptions plain_options)) = ""
  /\ server.CertPath (server.creds (server.applyServerOptions plain_options)) = ""
  /\ server.KeyPath (server.creds (server.applyServerOptions plain_options)) = ""
  /\ exists srv,
      @server.NewGRPCServer demo_platform plain_options empty_world
      = (Ret (Some srv, None),
         emit (EvLog (Core "app")
                 (zapcore.mkEntry zapcore.InfoLevel
                    "No TLS keys, insecure mode" [])) empty_world)
      /\ grpc.srv_creds srv = None.
Proof.
  split; [reflexivity|]. split; [reflexivity|]. split; [reflexivity|].
  exact (@server_without_tls_material demo_platform plain_options empty_world
           eq_refl eq_refl eq_refl).
Defined.

(** C7, as the claim states it, fails: when the CA file named in the
    configuration cannot be read, the error is that of reading the CA, not
    that of the key pair. *)
Lemma server_ca_unreadable_is_not_key_pair_invalid :
  exists e w',
    @server.NewGRPCServer demo_platform ca_only_options empty_world
    = (Ret (None, Some e), w')
    /\ err_text e
       = "failed to read ac cert: open ca.pem: no such file or directory"
    /\ credentialErrorKind e = Some CAUnreadable
    /\ credentialErrorKind e <> Some KeyPairInvalid.
Proof.
  do 2 eexists. split; [reflexivity|].
  split; [reflexivity|]. split; [reflexivity|]. discriminate.
Qed.

(** C7 at work: a CA bundle that is on the disk and parses, no key pair. *)
Lemma server_ca_without_key_pair_fails_witness :
  server.CAPath (server.creds (server.applyServerOptions ca_only_options)) <> ""
  /\ (server.CertPath (server.creds (server.applyServerOptions ca_only_options)) = ""
      \/ server.KeyPath (server.creds (server.applyServerOptions ca_only_options)) = "")
  /\ exists e w',
      @server.NewGRPCServer demo_platform ca_only_options ca_world
      = (Ret (None, Some e), w')
      /\ credentialErrorKind e = Some KeyPairInvalid.
Proof.
  split; [discriminate|]. split; [left; reflexivity|].
  exact (@server_ca_without_key_pair_fails demo_platform ca_only_options ca_world
           ltac:(discriminate) (or_introl eq_refl)).
Defined.

(** C8 at work: the CA bundle on the disk is not read. *)
Lemma insecure_client_consults_no_tls_material_witness :
  client.Insecure (client.creds (client.applyClientOptions insecure_options)) = true
  /\ @client.clientCreds demo_platform (client.applyClientOptions insecure_options)
       ca_world
     = (Ret (inr [grpc.WithInsecure]), ca_world)
  /\ snd (@client.NewGRPCConn demo_platform "localhost:50051" insecure_options ca_world)
     = ca_world
  /\ reads (trace (snd (@client.NewGRPCConn demo_platform "localhost:50051"
                          insecure_options ca_world)))
     = reads (trace ca_world).
Proof.
  split; [reflexivity|].
  pose proof (@insecure_client_consults_no_tls_material demo_platform
                "localhost:50051" insecure_options ca_world eq_refl)
    as (H1 & H2 & H3 & _).
  split; [exact H1|]. split; [exact H2|]. exact H3.
Defined.

(** C5, as the claim states it, fails: with [retryMax = 2] a call that
    keeps failing with Unavailable is attempted twice, not three times. *)
Lemma retry_max_two_makes_two_attempts :
  count_user "attempt"
    (trace (snd (@grpc_retry.UnaryClientInterceptor demo_platform
                   (client.retryOpts (retrying 2))
                   context.Background "/svc/Call" ANil
                   (failing_invoker (fun _ => unavailable)) empty_world)))
  = 2%nat
  /\ count_user "attempt"
       (trace (snd (@grpc_retry.UnaryClientInterceptor demo_platform
                      (client.retryOpts (retrying 2))
                      context.Background "/svc/Call" ANil
                      (failing_invoker (fun _ => unavailable)) empty_world)))
     <> (2 + 1)%nat.
Proof. split; [reflexivity|discriminate]. Qed.

(** C5 at work: [retryMax = 3], three attempts. *)
Lemma retry_attempts_on_persistent_failure_witness :
  (forall w', ctx_Err context.Background w' = None)
  /\ (forall k : nat, transient unavailable)
  /\ (count_user "attempt"
        (trace (snd (@grpc_retry.UnaryClientInterceptor demo_platform
                       (client.retryOpts (retrying 3))
                       context.Background "/svc/Call" ANil
                       (failing_invoker (fun _ => unavailable)) empty_world)))
      = 3%nat
      /\ fst (@grpc_retry.UnaryClientInterceptor demo_platform
                (client.retryOpts (retrying 3))
                context.Background "/svc/Call" ANil
                (failing_invoker (fun _ => unavailable)) empty_world)
         = Ret (Some unavailable))
  /\ (grpc.ClientStreams watch_desc = false
      /\ count_user "attempt"
           (trace (snd (@grpc_retry.StreamClientInterceptor demo_platform
                          (client.retryOpts (retrying 3))
                          context.Background watch_desc "/svc/Watch"
                          (failing_streamer (fun _ => unavailable)) empty_world)))
         = 3%nat).
Proof.
  assert (Hlive : forall w', ctx_Err context.Background w' = None)
    by (intros; reflexivity).
  assert (Htr : forall k : nat, transient unavailable)
    by (intros; left; reflexivity).
  pose proof (@retry_attempts_on_persistent_failure demo_platform (retrying 3)
                context.Background "/svc/Call" (fun _ => unavailable) empty_world
                Hlive Htr) as [HU _].
  pose proof (@retry_attempts_on_persistent_failure demo_platform (retrying 3)
                context.Background "/svc/Watch" (fun _ => unavailable) empty_world
                Hlive Htr) as [_ HS].
  split; [exact Hlive|]. split; [exact Htr|]. split.
  - exact (HU ANil).
  - split; [reflexivity|]. exact (proj1 (HS watch_desc eq_refl)).
Defined.

(** C9, as the claim states it, fails: the waits of a run with three
    attempts are one second and one second, not one second and two; the
    wait before attempt number 2 is one second, not two. *)
Lemma retry_second_wait_is_not_doubled :
  sleeps (trace (snd (@grpc_retry.UnaryClientInterceptor demo_platform
                        (client.retryOpts (retrying 3))
                        context.Background "/svc/Call" ANil
                        (failing_invoker (fun _ => unavailable)) empty_world)))
  = [time_Second; time_Second]
  /\ grpc_retry.waitTime context.Background
       (@retryCallOpts demo_platform (retrying 3)) 2
     = time_Second
  /\ grpc_retry.waitTime context.Background
       (@retryCallOpts demo_platform (retrying 3)) 2
     <> 2 * time_Second.
Proof. split; [reflexivity|]. split; [reflexivity|discriminate]. Qed.

(** C9 at work: the wait before attempt 5, and the waits of a run. *)
Lemma retry_backoff_is_one_second_witness :
  (0 < 5)%nat
  /\ grpc_retry.waitTime context.Background
       (@retryCallOpts demo_platform (retrying 3)) 5
     = time_Second
  /\ (forall w', ctx_Err context.Background w' = None)
  /\ (forall k : nat, transient unavailable)
  /\ sleeps (trace (snd (@grpc_retry.UnaryClientInterceptor demo_platform
                           (client.retryOpts (retrying 3))
                           context.Background "/svc/Call" ANil
                           (failing_invoker (fun _ => unavailable)) empty_world)))
     = [time_Second; time_Second].
Proof.
  assert (Hlive : forall w', ctx_Err context.Background w' = None)
    by (intros; reflexivity).
  assert (Htr : forall k : nat, transient unavailable)
    by (intros; left; reflexivity).
  pose proof (@retry_backoff_is_one_second demo_platform (retrying 3)
                context.Background) as (Hwait & _ & Hrun).
  split; [lia|]. split; [exact (Hwait 5%nat ltac:(lia))|].
  split; [exact Hlive|]. split; [exact Htr|].
  exact (Hrun "/svc/Call" ANil (fun _ => unavailable) empty_world Hlive Htr).
Defined.

(** C1 on the code.  The connection that [NewGRPCConn] builds for these
    options runs a call that keeps failing with Unavailable once: the
    caller's interceptor, one attempt, no wait.  Of the two unary (and the
    two stream) interceptor options handed to [Dial], the chain of the
    caller's interceptors is the later and replaces the retry interceptor.
    With the retry interceptor around that chain the same call would make
    three attempts, each through the caller's interceptor. *)
Theorem client_retry_interceptor_is_replaced :
  exists cc,
    @client.NewGRPCConn demo_platform "localhost:50051" retry_client_options
      empty_world
    = (Ret (Some cc, None), empty_world)
    /\ grpc.unaryInt (grpc.dopts cc)
       = Some (grpc_middleware.ChainUnaryClient [marking_unary "caller"])
    /\ grpc.streamInt (grpc.dopts cc)
       = Some (grpc_middleware.ChainStreamClient [marking_stream "caller"])
    /\ fst (grpc.Invoke cc (failing_invoker (fun _ => unavailable))
              context.Background "/svc/Call" ANil empty_world)
       = Ret (Some unavailable)
    /\ trace (snd (grpc.Invoke cc (failing_invoker (fun _ => unavailable))
                     context.Background "/svc/Call" ANil empty_world))
       = [EvUser "caller"; EvUser "attempt"]
    /\ trace (snd (grpc.NewStream cc (failing_streamer (fun _ => unavailable))
                     context.Background watch_desc "/svc/Watch" empty_world))
       = [EvUser "caller"; EvUser "attempt"]
    /\ trace (snd (@grpc_retry.UnaryClientInterceptor demo_platform
                     (client.retryOpts
                        (client.applyClientOptions retry_client_options))
                     context.Background "/svc/Call" ANil
                     (fun c m r =>
                        grpc_middleware.ChainUnaryClient [marking_unary "caller"]
                          c m r (failing_invoker (fun _ => unavailable)))
                     empty_world))
       = [EvUser "caller"; EvUser "attempt"; EvSleep time_Second;
          EvUser "caller"; EvUser "attempt"; EvSleep time_Second;
          EvUser "caller"; EvUser "attempt"].
Proof.
  eexists. split; [reflexivity|].
  repeat split; reflexivity.
Qed.

(** * Further properties *)

(** ** The options *)

(** Each server option assigns one field and leaves the others: after any
    options, the option applied last decides its field.  An interceptor
    option replaces the list given by an earlier one, it does not extend
    it. *)
Theorem server_option_applied_last_wins :
  forall (opts : list server.ServerOption) l c us us' ss ss',
    let o := server.applyServerOptions opts in
    server.applyServerOptions (opts ++ [server.ServerLogger l])
    = server.mkServerOptions l (server.creds o)
        (server.streamInterceptors o) (server.unaryInterceptors o)
    /\ server.applyServerOptions (opts ++ [server.ServerCredentials c])
       = server.mkServerOptions (server.logger o) c
           (server.streamInterceptors o) (server.unaryInterceptors o)
    /\ server.applyServerOptions
         (opts ++ [server.UnaryServerInterceptors us;
                   server.UnaryServerInterceptors us'])
       = server.mkServerOptions (server.logger o) (server.creds o)
           (server.streamInterceptors o) us'
    /\ server.applyServerOptions
         (opts ++ [server.StreamServerInterceptors ss;
                   server.StreamServerInterceptors ss'])
       = server.mkServerOptions (server.logger o) (server.creds o)
           ss' (server.unaryInterceptors o).
Proof.
  intros opts l c us us' ss ss' o. subst o.
  unfold server.applyServerOptions.
  rewrite !fold_left_app. simpl.
  repeat split; reflexivity.
Qed.

(** [ClientCInsecure] sets the flag inside the credentials and keeps the
    paths; [ClientCredentials] assigns the whole credentials, flag
    included.  So the flag of an earlier [ClientCInsecure] is lost when
    [ClientCredentials] follows it, and kept when it comes first. *)
Theorem client_insecure_depends_on_option_order :
  forall (opts : list client.ClientOption) c,
    client.creds (client.applyClientOptions
                    (opts ++ [client.ClientCInsecure; client.ClientCredentials c]))
    = c
    /\ client.creds (client.applyClientOptions
                       (opts ++ [client.ClientCredentials c; client.ClientCInsecure]))
       = client.mkClientCredentialsConfig (client.CAPath c) (client.CertPath c)
           (client.KeyPath c) (client.ServerName c) true.
Proof.
  intros opts c. unfold client.applyClientOptions.
  rewrite !fold_left_app. simpl. split; reflexivity.
Qed.

(** Each of the other client options assigns one field and leaves the
    others; an interceptor option replaces the list given by an earlier
    one. *)
Theorem client_option_applied_last_wins :
  forall (opts : list client.ClientOption) l n t us us' ss ss',
    let o := client.applyClientOptions opts in
    client.applyClientOptions (opts ++ [client.ClientLogger l])
    = client.mkClientOptions l (client.retryMax o) (client.retryTimeout o)
        (client.creds o) (client.streamInterceptors o) (client.unaryInterceptors o)
    /\ client.applyClientOptions (opts ++ [client.ClientRetryMax n])
       = client.mkClientOptions (client.logger o) n (client.retryTimeout o)
           (client.creds o) (client.streamInterceptors o) (client.unaryInterceptors o)
    /\ client.applyClientOptions (opts ++ [client.ClientRetryTimeout t])
       = client.mkClientOptions (client.logger o) (client.retryMax o) t
           (client.creds o) (client.streamInterceptors o) (client.unaryInterceptors o)
    /\ client.applyClientOptions
         (opts ++ [client.UnaryClientInterceptors us;
                   client.UnaryClientInterceptors us'])
       = client.mkClientOptions (client.logger o) (client.retryMax o)
           (client.retryTimeout o) (client.creds o)
           (client.streamInterceptors o) us'
    /\ client.applyClientOptions
         (opts ++ [client.StreamClientInterceptors ss;
                   client.StreamClientInterceptors ss'])
       = client.mkClientOptions (client.logger o) (client.retryMax o)
           (client.retryTimeout o) (client.creds o)
           ss' (client.unaryInterceptors o).
Proof.
  intros opts l n t us us' ss ss' o. subst o.
  unfold client.applyClientOptions.
  rewrite !fold_left_app. simpl.
  repeat split; reflexivity.
Qed.

(** ** The logging interceptors, further *)

Lemma applyLoggerFeilds_from ctx (lfs : list interceptor.LoggerFeild) acc :
  fold_left (fun fields ls => (fields ++ [ls ctx])%list) lfs acc
  = (acc ++ map (fun ls => ls ctx) lfs)%list.
Proof.
  revert acc; induction lfs as [|f lfs IH]; intros acc; simpl.
  - rewrite app_nil_r. reflexivity.
  - rewrite IH, <- app_assoc. reflexivity.
Qed.

(** [applyLoggerFeilds] yields one field per extractor, in the order of the
    extractors, each evaluated on the given context. *)
Theorem applyLoggerFeilds_is_map :
  forall ctx (lfs : list interceptor.LoggerFeild),
    interceptor.applyLoggerFeilds ctx lfs = map (fun ls => ls ctx) lfs
    /\ List.length (interceptor.applyLoggerFeilds ctx lfs) = List.length lfs.
Proof.
  intros ctx lfs.
  assert (E : interceptor.applyLoggerFeilds ctx lfs = map (fun ls => ls ctx) lfs)
    by (unfold interceptor.applyLoggerFeilds; apply applyLoggerFeilds_from).
  split; [exact E|]. rewrite E. apply length_map.
Qed.




Section LoggingFurther.
Context `{Platform}.

(** After a call that returns, the world is the handler's world with one
    record added: the clock and the disk are as the handler left them.  The
    fields of the record are the logger's own followed by one field per
    extractor, in order, evaluated on the context of the call (for a
    stream, on the context of the stream); the latency in the message is
    the time that passed between entering and leaving the handler. *)
Theorem logging_record_contents :
  forall (logger : zap.Logger) (opts : list interceptor.LoggerFeild),
    (forall ctx req info handler w resp err w',
        handler ctx req w = (Ret (resp, err), w') ->
        exists entry,
          snd (interceptor.UnaryServerInterceptor logger opts ctx req info handler w)
          = emit (EvLog (zap.core logger) entry) w'
          /\ zapcore.Fields entry
             = (zap.context_ logger ++ map (fun ls => ls ctx) opts)%list
          /\ zapcore.Message entry
             = interceptor.log_message (now w) (now w')
                 (grpc.usi_FullMethod info) (status.Code err) err)
    /\
    (forall srv stream info handler w err w',
        handler srv stream w = (Ret err, w') ->
        exists entry,
          snd (interceptor.StreamServerInterceptor logger opts srv stream info handler w)
          = emit (EvLog (zap.core logger) entry) w'
          /\ zapcore.Fields entry
             = (zap.context_ logger
                ++ map (fun ls => ls (grpc.ss_Context stream)) opts)%list
          /\ zapcore.Message entry
             = interceptor.log_message (now w) (now w')
                 (grpc.ssi_FullMethod info) (status.Code err) err).
Proof.
  intros logger opts; split.
  - intros ctx req info handler w resp err w' Hh.
    rewrite (unary_logging_run logger opts ctx req info handler w resp err w' Hh).
    eexists; split; [reflexivity|]. simpl.
    unfold interceptor.applyLoggerFeilds. rewrite applyLoggerFeilds_from.
    split; reflexivity.
  - intros srv stream info handler w err w' Hh.
    rewrite (stream_logging_run logger opts srv stream info handler w err w' Hh).
    eexists; split; [reflexivity|]. simpl.
    unfold interceptor.applyLoggerFeilds. rewrite applyLoggerFeilds_from.
    split; reflexivity.
Qed.

(** A call whose handler panics leaves no record: the panic passes through
    the logging interceptor, and the world is as the handler left it. *)
Theorem logging_skips_panicking_call :
  forall (logger : zap.Logger) (opts : list interceptor.LoggerFeild),
    (forall ctx req info handler w v w',
        handler ctx req w = (Panic v, w') ->
        interceptor.UnaryServerInterceptor logger opts ctx req info handler w
        = (Panic v, w'))
    /\
    (forall srv stream info handler w v w',
        handler srv stream w = (Panic v, w') ->
        interceptor.StreamServerInterceptor logger opts srv stream info handler w
        = (Panic v, w')).
Proof.
  intros logger opts; split.
  - intros; apply unary_logging_panic; assumption.
  - intros; apply stream_logging_panic; assumption.
Qed.

(** A failure that carries no gRPC status is logged under the code Unknown
    and at Info level, with the text of the error at the end of the
    message; a call that succeeds is logged under OK, at Info level, with
    no error part. *)
Theorem logging_of_plain_errors_and_successes :
  forall (logger : zap.Logger) (opts : list interceptor.LoggerFeild)
         ctx req info handler w resp w',
    (forall e,
        err_status e = None ->
        handler ctx req w = (Ret (resp, Some e), w') ->
        exists entry,
          snd (interceptor.UnaryServerInterceptor logger opts ctx req info handler w)
          = emit (EvLog (zap.core logger) entry) w'
          /\ zapcore.Level_ entry = zapcore.InfoLevel
          /\ zapcore.Message entry
             = "latency=" ++ pad_right 12 (Duration_String (now w' - now w))
                 ++ " " ++ grpc.usi_FullMethod info ++ " Unknown, err="
                 ++ err_text e)
    /\
    (handler ctx req w = (Ret (resp, None), w') ->
     exists entry,
       snd (interceptor.UnaryServerInterceptor logger opts ctx req info handler w)
       = emit (EvLog (zap.core logger) entry) w'
       /\ zapcore.Level_ entry = zapcore.InfoLevel
       /\ zapcore.Message entry
          = "latency=" ++ pad_right 12 (Duration_String (now w' - now w))
              ++ " " ++ grpc.usi_FullMethod info ++ " OK").
Proof.
  intros logger opts ctx req info handler w resp w'. split.
  - intros e He Hh.
    rewrite (unary_logging_run logger opts ctx req info handler w resp (Some e) w' Hh).
    eexists; split; [reflexivity|].
    unfold is_alarming, status.Code, interceptor.log_message. rewrite He.
    split; reflexivity.
  - intros Hh.
    rewrite (unary_logging_run logger opts ctx req info handler w resp None w' Hh).
    eexists; split; [reflexivity|]. split; reflexivity.
Qed.
End LoggingFurther.

(** ** The server, further *)


Section ServerFurther.
Context `{Platform}.

Lemma ReadFile_hit path w data :
  path <> "" ->
  files w path = Some data ->
  ioutil.ReadFile path w = (Ret (data, None), emit (EvReadFile path) w).
Proof.
  intros Hp Hf. unfold ioutil.ReadFile.
  apply String.eqb_neq in Hp. rewrite Hp, Hf. reflexivity.
Qed.

Lemma LoadX509KeyPair_hit cert key w certPEM keyPEM :
  cert <> "" -> key <> "" ->
  files w cert = Some certPEM ->
  files w key = Some keyPEM ->
  X509KeyPair_err certPEM keyPEM = None ->
  tls.LoadX509KeyPair cert key w
  = (Ret (tls.mkCertificate certPEM keyPEM, None),
     emit (EvReadFile key) (emit (EvReadFile cert) w)).
Proof.
  intros Hc Hk Hfc Hfk Hpair. unfold tls.LoadX509KeyPair, bind.
  rewrite (ReadFile_hit cert w certPEM Hc Hfc).
  rewrite (ReadFile_hit key (emit (EvReadFile cert) w) keyPEM Hk Hfk).
  rewrite Hpair. reflexivity.
Qed.


(** Server-side TLS without client verification: with no CA path and a
    certificate and a key that load, [NewGRPCServer] builds a server whose
    credentials hold that certificate, ask for no client certificate and
    name no client CAs.  It announces the mode at Info level, then reads the
    certificate file, then the key file. *)
Theorem server_only_tls :
  forall options w certPEM keyPEM,
    let o := server.applyServerOptions options in
    let c := server.creds o in
    server.CAPath c = "" ->
    server.CertPath c <> "" ->
    server.KeyPath c <> "" ->
    files w (server.CertPath c) = Some certPEM ->
    files w (server.KeyPath c) = Some keyPEM ->
    X509KeyPair_err certPEM keyPEM = None ->
    exists srv w',
      server.NewGRPCServer options w = (Ret (Some srv, None), w')
      /\ grpc.srv_creds srv
         = Some {| tls.Certificates := [tls.mkCertificate certPEM keyPEM];
                   tls.RootCAs := None;
                   tls.ServerName := "";
                   tls.ClientAuth := tls.NoClientCert;
                   tls.ClientCAs := None |}
      /\ trace w'
         = (trace w
            ++ [EvLog (zap.core (server.logger o))
                  (zapcore.mkEntry zapcore.InfoLevel
                     "enable sample credentials in grpc server"
                     (zap.context_ (server.logger o)));
                EvReadFile (server.CertPath c);
                EvReadFile (server.KeyPath c)])%list.
Proof.
  intros options w certPEM keyPEM o c Hca Hcert Hkey Hfc Hfk Hpair.
  unfold server.NewGRPCServer, server.serverCreds. fold o. fold c.
  destruct c as [ca cert key]; simpl in *. subst ca.
  pose proof (proj2 (String.eqb_neq _ _) Hcert) as Ec.
  rewrite Ec. simpl.
  unfold credentials.NewServerTLSFromFile.
  unfold bind at 1 2 3 4. unfold zap.Info, zap.log, tell.
  match goal with
  | |- context [tls.LoadX509KeyPair cert key ?w1] =>
      rewrite (LoadX509KeyPair_hit cert key w1 certPEM keyPEM Hcert Hkey Hfc Hfk Hpair)
  end.
  simpl. do 2 eexists. split; [reflexivity|]. split; [reflexivity|].
  simpl. rewrite <- !app_assoc. reflexivity.
Qed.

(** Without a CA path, naming only one of the certificate and the key
    does not fall back to running without TLS: [NewGRPCServer] fails, and
    the error is the key-pair error with the message [bad tls
    credentials]. *)
Theorem server_only_tls_needs_both_paths :
  forall options w,
    let c := server.creds (server.applyServerOptions options) in
    server.CAPath c = "" ->
    (server.CertPath c = "" /\ server.KeyPath c <> "")
    \/ (server.CertPath c <> "" /\ server.KeyPath c = "") ->
    exists e w',
      server.NewGRPCServer options w = (Ret (None, Some e), w')
      /\ has_prefix "bad tls credentials: " (err_text e) = true
      /\ credentialErrorKind e = Some KeyPairInvalid.
Proof.
  intros options w c Hca Hone.
  unfold server.NewGRPCServer, server.serverCreds. fold c.
  destruct c as [ca cert key]; simpl in *. subst ca.
  assert (Hall : String.eqb cert "" && String.eqb key "" = false).
  { destruct Hone as [[-> Hk]|[Hc ->]].
    - apply String.eqb_neq in Hk. rewrite Hk. reflexivity.
    - apply String.eqb_neq in Hc. rewrite Hc. reflexivity. }
  simpl. rewrite Hall.
  unfold credentials.NewServerTLSFromFile.
  unfold bind at 1 2 3 4. unfold zap.Info, zap.log, tell.
  match goal with
  | |- context [tls.LoadX509KeyPair cert key ?w1] =>
      destruct (LoadX509KeyPair_missing cert key w1) as (e & w' & He);
        [destruct Hone as [[-> _]|[_ ->]]; [left|right]; reflexivity|];
        rewrite He
  end.
  do 2 eexists. split; [reflexivity|]. split; reflexivity.
Qed.

(** Mutual TLS: with a CA bundle that reads and parses and a certificate
    and a key that load, [NewGRPCServer] builds a server whose credentials
    hold the certificate, require and verify a client certificate, and take
    the bundle as the client CAs.  The files are read in the order CA,
    certificate, key. *)
Theorem server_mutual_tls :
  forall options w caPEM certPEM keyPEM,
    let o := server.applyServerOptions options in
    let c := server.creds o in
    server.CAPath c <> "" ->
    server.CertPath c <> "" ->
    server.KeyPath c <> "" ->
    files w (server.CAPath c) = Some caPEM ->
    AppendCertsFromPEM_ok caPEM = true ->
    files w (server.CertPath c) = Some certPEM ->
    files w (server.KeyPath c) = Some keyPEM ->
    X509KeyPair_err certPEM keyPEM = None ->
    exists srv w',
      server.NewGRPCServer options w = (Ret (Some srv, None), w')
      /\ grpc.srv_creds srv
         = Some {| tls.Certificates := [tls.mkCertificate certPEM keyPEM];
                   tls.RootCAs := None;
                   tls.ServerName := "";
                   tls.ClientAuth := tls.RequireAndVerifyClientCert;
                   tls.ClientCAs := Some [caPEM] |}
      /\ reads (trace w')
         = (reads (trace w)
            ++ [server.CAPath c; server.CertPath c; server.KeyPath c])%list.
Proof.
  intros options w caPEM certPEM keyPEM o c Hca Hcert Hkey Hfa Hok Hfc Hfk Hpair.
  unfold server.NewGRPCServer, server.serverCreds. fold o. fold c.
  destruct c as [ca cert key]; simpl in *.
  pose proof (proj2 (String.eqb_neq _ _) Hca) as Ea.
  rewrite Ea. simpl.
  unfold bind at 1 2. unfold zap.Info, zap.log, tell.
  unfold bind at 1 2.
  match goal with
  | |- context [ioutil.ReadFile ca ?w1] =>
      rewrite (ReadFile_hit ca w1 caPEM Hca Hfa)
  end.
  unfold x509.AppendCertsFromPEM. rewrite Hok.
  cbn -[tls.LoadX509KeyPair]. unfold bind at 1.
  match goal with
  | |- context [tls.LoadX509KeyPair cert key ?w1] =>
      rewrite (LoadX509KeyPair_hit cert key w1 certPEM keyPEM Hcert Hkey Hfc Hfk Hpair)
  end.
  simpl. do 2 eexists. split; [reflexivity|]. split; [reflexivity|].
  simpl. rewrite !reads_app. simpl. rewrite <- !app_assoc. reflexivity.
Qed.

(** A CA path that does not lead to a usable bundle ends the construction
    before the key pair is looked at, whatever the certificate and key
    paths are.  When the file cannot be read the message carries the read
    error; when no certificate parses from it there is no underlying error,
    and the message is [bad ac certificate:] followed by the way fmt prints
    a nil error. *)
Theorem server_ca_errors :
  forall options w,
    let o := server.applyServerOptions options in
    let c := server.creds o in
    server.CAPath c <> "" ->
    (files w (server.CAPath c) = None ->
     exists w',
       server.NewGRPCServer options w
       = (Ret (None,
               Some (mkError None
                       ("failed to read ac cert: open " ++ server.CAPath c
                          ++ ": no such file or directory"))), w')
       /\ reads (trace w') = (reads (trace w) ++ [server.CAPath c])%list)
    /\
    (forall pem,
        files w (server.CAPath c) = Some pem ->
        AppendCertsFromPEM_ok pem = false ->
        exists w',
          server.NewGRPCServer options w
          = (Ret (None, Some (mkError None "bad ac certificate: %!w(<nil>)")), w')
          /\ reads (trace w') = (reads (trace w) ++ [server.CAPath c])%list).
Proof.
  intros options w o c Hca.
  unfold server.NewGRPCServer, server.serverCreds. fold o. fold c.
  destruct c as [ca cert key]; simpl in *.
  pose proof (proj2 (String.eqb_neq _ _) Hca) as Ea.
  rewrite Ea. simpl.
  split.
  - intros Hf.
    unfold bind at 1 2. unfold zap.Info, zap.log, tell.
    unfold bind at 1 2. unfold ioutil.ReadFile at 1. rewrite Ea. simpl files.
    rewrite Hf. eexists. split; [reflexivity|].
    simpl. rewrite !reads_app. simpl. rewrite <- !app_assoc. reflexivity.
  - intros pem Hf Hok.
    unfold bind at 1 2. unfold zap.Info, zap.log, tell.
    unfold bind at 1 2. unfold ioutil.ReadFile at 1. rewrite Ea. simpl files.
    rewrite Hf.
    unfold x509.AppendCertsFromPEM. rewrite Hok.
    eexists. split; [reflexivity|].
    simpl. rewrite !reads_app. simpl. rewrite <- !app_assoc. reflexivity.
Qed.

(** The recovery interceptor does nothing to a call that returns: on a
    server built by [NewGRPCServer], when the caller's interceptors around
    the handler return, the call ends with their result in their world, and
    nothing is logged by the server. *)
Theorem recovery_is_transparent_on_return :
  forall options w0 srv w1,
    server.NewGRPCServer options w0 = (Ret (Some srv, None), w1) ->
    let o := server.applyServerOptions options in
    (forall ctx req info handler w r w',
        grpc_middleware.ChainUnaryServer (server.unaryInterceptors o)
          ctx req info handler w = (Ret r, w') ->
        grpc.serveUnary srv ctx req info handler w = (Ret r, w'))
    /\
    (forall srv_ stream info handler w r w',
        grpc_middleware.ChainStreamServer (server.streamInterceptors o)
          srv_ stream info handler w = (Ret r, w') ->
        grpc.serveStream srv srv_ stream info handler w = (Ret r, w')).
Proof.
  intros options w0 srv w1 Hnew o.
  destruct (NewGRPCServer_interceptors _ _ _ _ _ Hnew) as [Hu Hs].
  fold o in Hu, Hs. split.
  - intros ctx req info handler w r w' Hr.
    unfold grpc.serveUnary. rewrite Hu, chain_unary_server_cons.
    apply unaryRecovery_ret; exact Hr.
  - intros srv_ stream info handler w r w' Hr.
    unfold grpc.serveStream. rewrite Hs, chain_stream_server_cons.
    apply streamRecovery_ret; exact Hr.
Qed.

(** The logging interceptor of the package under the recovery interceptor
    of the server: a call that returns is answered with the handler's
    result and leaves the one record of the logging interceptor; a call
    whose handler panics is answered with nil and leaves the one record of
    the recovery interceptor, and no record of its latency or status. *)
Theorem server_with_logging_interceptor :
  forall options logger fields w0 srv w1,
    server.NewGRPCServer options w0 = (Ret (Some srv, None), w1) ->
    let o := server.applyServerOptions options in
    server.unaryInterceptors o
    = [interceptor.UnaryServerInterceptor logger fields] ->
    forall ctx req info handler w,
      (forall resp err w',
          handler ctx req w = (Ret (resp, err), w') ->
          exists entry,
            grpc.serveUnary srv ctx req info handler w
            = (Ret (resp, err), emit (EvLog (zap.core logger) entry) w')
            /\ zapcore.Message entry
               = interceptor.log_message (now w) (now w')
                   (grpc.usi_FullMethod info) (status.Code err) err)
      /\
      (forall v w',
          handler ctx req w = (Panic v, w') ->
          grpc.serveUnary srv ctx req info handler w
          = (Ret (ANil, None), emit (recovered_entry o v) w')).
Proof.
  intros options logger fields w0 srv w1 Hnew o HU ctx req info handler w.
  destruct (NewGRPCServer_interceptors _ _ _ _ _ Hnew) as [Hu _].
  fold o in Hu. rewrite HU in Hu.
  assert (Heq : grpc.serveUnary srv ctx req info handler w
                = unaryRecovery o ctx req info
                    (fun c r =>
                       interceptor.UnaryServerInterceptor logger fields c r info handler) w)
    by (unfold grpc.serveUnary; rewrite Hu; reflexivity).
  rewrite Heq. split.
  - intros resp err w' Hh.
    pose proof (unary_logging_run logger fields ctx req info handler w resp err w' Hh)
      as Hlog.
    eexists. split.
    + apply unaryRecovery_ret. exact Hlog.
    + reflexivity.
  - intros v w' Hh.
    apply unaryRecovery_panic.
    apply unary_logging_panic. exact Hh.
Qed.
End ServerFurther.

(** ** The client, further *)

Section ClientFurther.
Context `{Platform}.

(** A client that is not marked insecure and names no CA and no complete
    key pair still dials with TLS: the credentials stage reads no file and
    yields transport credentials with the configured server name, no root
    CAs of its own and no client certificate.  A certificate path without a
    key path, or a key path without a certificate path, is ignored. *)
Theorem client_tls_by_default :
  forall (o : client.clientOptions) w,
    let c := client.creds o in
    client.Insecure c = false ->
    client.CAPath c = "" ->
    client.CertPath c = "" \/ client.KeyPath c = "" ->
    client.clientCreds o w
    = (Ret (inr [grpc.WithTransportCredentials
                   (Some {| tls.Certificates := [];
                            tls.RootCAs := None;
                            tls.ServerName := client.ServerName c;
                            tls.ClientAuth := tls.NoClientCert;
                            tls.ClientCAs := None |})]), w).
Proof.
  intros o w c Hins Hca Hpair. unfold client.clientCreds. fold c.
  rewrite Hins, Hca. simpl.
  assert (Hboth : negb (String.eqb (client.CertPath c) "")
                  && negb (String.eqb (client.KeyPath c) "") = false).
  { destruct Hpair as [-> | ->]; simpl; [reflexivity|].
    apply andb_false_r. }
  unfold bind at 1. unfold ret at 1. unfold bind at 1. rewrite Hboth.
  reflexivity.
Qed.

(** When the CA file of a client cannot be read, [NewGRPCConn] returns the
    error of the read as it is, without a message of its own, and no
    connection; the CA file is the only file it has tried, and the
    transport is not asked. *)
Theorem client_ca_read_error_is_returned_as_is :
  forall address opts w,
    let c := client.creds (client.applyClientOptions opts) in
    client.Insecure c = false ->
    client.CAPath c <> "" ->
    files w (client.CAPath c) = None ->
    client.NewGRPCConn address opts w
    = (Ret (None,
            Some (mkError None
                    ("open " ++ client.CAPath c ++ ": no such file or directory"))),
       emit (EvReadFile (client.CAPath c)) w).
Proof.
  intros address opts w c Hins Hca Hf.
  unfold client.NewGRPCConn, client.clientCreds. fold c.
  rewrite Hins. apply String.eqb_neq in Hca. rewrite Hca. simpl.
  unfold bind at 1 2 3. unfold ioutil.ReadFile. rewrite Hca, Hf. reflexivity.
Qed.

(** The two other credential failures of the client carry one and the
    same message, [failed to append ca crt].  For a CA bundle from which no
    certificate parses there is no underlying error, and the message ends
    with the way fmt prints a nil error.  For a key pair that does not load
    (here: with no CA path) the message is followed by the text of the
    load error, although no CA is involved. *)
Theorem client_credential_errors_share_a_message :
  forall address opts w,
    let c := client.creds (client.applyClientOptions opts) in
    client.Insecure c = false ->
    (forall pem,
        client.CAPath c <> "" ->
        files w (client.CAPath c) = Some pem ->
        AppendCertsFromPEM_ok pem = false ->
        client.NewGRPCConn address opts w
        = (Ret (None, Some (mkError None "failed to append ca crt: %!w(<nil>)")),
           emit (EvReadFile (client.CAPath c)) w))
    /\
    (forall z cause w',
        client.CAPath c = "" ->
        client.CertPath c <> "" ->
        client.KeyPath c <> "" ->
        tls.LoadX509KeyPair (client.CertPath c) (client.KeyPath c) w
        = (Ret (z, Some cause), w') ->
        client.NewGRPCConn address opts w
        = (Ret (None,
                Some (mkError None ("failed to append ca crt: " ++ err_text cause))),
           w')).
Proof.
  intros address opts w c Hins. split.
  - intros pem Hca Hf Hok.
    unfold client.NewGRPCConn, client.clientCreds. fold c.
    rewrite Hins. apply String.eqb_neq in Hca. rewrite Hca. simpl.
    unfold bind at 1 2 3. unfold ioutil.ReadFile. rewrite Hca, Hf.
    unfold x509.AppendCertsFromPEM. rewrite Hok. reflexivity.
  - intros z cause w' Hca Hcert Hkey Hload.
    unfold client.NewGRPCConn, client.clientCreds. fold c.
    rewrite Hins, Hca. simpl.
    apply String.eqb_neq in Hcert. apply String.eqb_neq in Hkey.
    rewrite Hcert, Hkey. simpl.
    unfold bind at 1 2. unfold ret at 1. unfold bind at 1 2.
    rewrite Hload. reflexivity.
Qed.

(** A client with a CA bundle that reads and parses and a certificate and
    a key that load gets transport credentials with the bundle as the root
    CAs, the certificate as its client certificate and the configured
    server name; the files are read in the order CA, certificate, key. *)
Theorem client_tls_with_ca_and_key_pair :
  forall (o : client.clientOptions) w caPEM certPEM keyPEM,
    let c := client.creds o in
    client.Insecure c = false ->
    client.CAPath c <> "" ->
    client.CertPath c <> "" ->
    client.KeyPath c <> "" ->
    files w (client.CAPath c) = Some caPEM ->
    AppendCertsFromPEM_ok caPEM = true ->
    files w (client.CertPath c) = Some certPEM ->
    files w (client.KeyPath c) = Some keyPEM ->
    X509KeyPair_err certPEM keyPEM = None ->
    client.clientCreds o w
    = (Ret (inr [grpc.WithTransportCredentials
                   (Some {| tls.Certificates := [tls.mkCertificate certPEM keyPEM];
                            tls.RootCAs := Some [caPEM];
                            tls.ServerName := client.ServerName c;
                            tls.ClientAuth := tls.NoClientCert;
                            tls.ClientCAs := None |})]),
       emit (EvReadFile (client.KeyPath c))
         (emit (EvReadFile (client.CertPath c))
            (emit (EvReadFile (client.CAPath c)) w))).
Proof.
  intros o w caPEM certPEM keyPEM c Hins Hca Hcert Hkey Hfa Hok Hfc Hfk Hpair.
  unfold client.clientCreds. fold c. rewrite Hins.
  pose proof (proj2 (String.eqb_neq _ _) Hca) as Ea.
  pose proof (proj2 (String.eqb_neq _ _) Hcert) as Ec.
  pose proof (proj2 (String.eqb_neq _ _) Hkey) as Ek.
  rewrite Ea, Ec, Ek. simpl.
  unfold bind at 1 2.
  rewrite (ReadFile_hit (client.CAPath c) w caPEM Hca Hfa).
  unfold x509.AppendCertsFromPEM. rewrite Hok.
  cbn -[tls.LoadX509KeyPair]. unfold bind at 1 2.
  match goal with
  | |- context [tls.LoadX509KeyPair _ _ ?w1] =>
      rewrite (LoadX509KeyPair_hit (client.CertPath c) (client.KeyPath c) w1
                 certPEM keyPEM Hcert Hkey Hfc Hfk Hpair)
  end.
  reflexivity.
Qed.


(** The result of [NewGRPCConn] once the credentials stage has
    succeeded. *)
Lemma conn_after_credentials :
  forall address opts w options w',
    let o := client.applyClientOptions opts in
    client.clientCreds o w = (Ret (inr options), w') ->
    (forall e,
        dial_target_err address = Some e ->
        client.NewGRPCConn address opts w = (Ret (None, Some e), w'))
    /\
    (dial_target_err address = None ->
     exists cc,
       client.NewGRPCConn address opts w = (Ret (Some cc, None), w')
       /\ grpc.target cc = address
       /\ grpc.insecure (grpc.dopts cc) = client.Insecure (client.creds o)
       /\ (grpc.TransportCredentials (grpc.dopts cc) = None
           <-> client.Insecure (client.creds o) = true)).
Proof.
  intros address opts w options w' o Hc.
  assert (Hins : options = [grpc.WithInsecure]
                 /\ client.Insecure (client.creds o) = true
                 \/ (exists cfg, options = [grpc.WithTransportCredentials (Some cfg)])
                    /\ client.Insecure (client.creds o) = false).
  { destruct (client.Insecure (client.creds o)) eqn:Hi.
    - left. split; [|reflexivity].
      unfold client.clientCreds in Hc. rewrite Hi in Hc.
      unfold ret in Hc. inversion Hc. reflexivity.
    - right. split; [|reflexivity].
      destruct (clientCreds_opts o w options w' Hc) as [->|[cfg ->]].
      + unfold client.clientCreds in Hc. rewrite Hi in Hc.
        unfold tls.LoadX509KeyPair, ioutil.ReadFile,
          x509.AppendCertsFromPEM, credentials.NewTLS, bind, ret in Hc.
        repeat step_run; simpl in *; discriminate.
      + eexists; reflexivity. }
  unfold client.NewGRPCConn, bind. fold o. rewrite Hc.
  destruct Hins as [[-> Hi]|[[cfg ->] Hi]]; rewrite Hi;
    unfold grpc.Dial; simpl; split.
  - intros e He. rewrite He. reflexivity.
  - intros He. rewrite He. eexists. split; [reflexivity|].
    simpl. repeat split; reflexivity.
  - intros e He. rewrite He. reflexivity.
  - intros He. rewrite He. eexists. split; [reflexivity|].
    simpl. repeat split; intros; discriminate.
Qed.

(** Once the credentials are resolved the result of [NewGRPCConn] is the
    transport's: the security options it passes never contradict each
    other, so [Dial] does not refuse them.  A connection that results is
    for the given address, is insecure exactly when the configuration says
    so, and has transport credentials exactly when it is not insecure. *)
Theorem NewGRPCConn_after_credentials :
  forall address opts w options w',
    let o := client.applyClientOptions opts in
    client.clientCreds o w = (Ret (inr options), w') ->
    (forall e,
        dial_target_err address = Some e ->
        client.NewGRPCConn address opts w = (Ret (None, Some e), w'))
    /\
    (dial_target_err address = None ->
     exists cc,
       client.NewGRPCConn address opts w = (Ret (Some cc, None), w')
       /\ grpc.target cc = address
       /\ grpc.insecure (grpc.dopts cc) = client.Insecure (client.creds o)
       /\ (grpc.TransportCredentials (grpc.dopts cc) = None
           <-> client.Insecure (client.creds o) = true)).
Proof.
  intros address opts w options w' o Hc.
  exact (conn_after_credentials address opts w options w' Hc).
Qed.


(** On every connection [NewGRPCConn] builds, a unary call runs through
    the caller's interceptors, first to last, and then the transport, and a
    stream likewise; with no interceptors of the caller the call goes
    straight to the transport.  The retry settings of the configuration do
    not enter. *)
Theorem connection_runs_the_callers_chain_only :
  forall address opts w cc e w',
    client.NewGRPCConn address opts w = (Ret (Some cc, e), w') ->
    let o := client.applyClientOptions opts in
    (forall invoke ctx method req,
        grpc.Invoke cc invoke ctx method req
        = grpc_middleware.ChainUnaryClient (client.unaryInterceptors o)
            ctx method req invoke)
    /\ (forall streamer ctx desc method,
           grpc.NewStream cc streamer ctx desc method
           = grpc_middleware.ChainStreamClient (client.streamInterceptors o)
               ctx desc method streamer)
    /\ (client.unaryInterceptors o = [] ->
        forall invoke ctx method req,
          grpc.Invoke cc invoke ctx method req = invoke ctx method req)
    /\ (client.streamInterceptors o = [] ->
        forall streamer ctx desc method,
          grpc.NewStream cc streamer ctx desc method = streamer ctx desc method).
Proof.
  intros address opts w cc e w' Hrun o.
  destruct (NewGRPCConn_interceptors address opts w cc e w' Hrun) as [Hu Hs].
  fold o in Hu, Hs.
  split; [|split; [|split]].
  - intros. unfold grpc.Invoke. rewrite Hu. reflexivity.
  - intros. unfold grpc.NewStream. rewrite Hs. reflexivity.
  - intros Hnil invoke ctx method req.
    unfold grpc.Invoke. rewrite Hu, Hnil. reflexivity.
  - intros Hnil streamer ctx desc method.
    unfold grpc.NewStream. rewrite Hs, Hnil. reflexivity.
Qed.
End ClientFurther.

(** ** The retry interceptor, further *)

Section RetryFurther.
Context `{Platform}.

Lemma unaryLoop_flaky o parentCtx method req errs k :
  (forall w, ctx_Err parentCtx w = None) ->
  (forall i, transient (errs i)) ->
  forall n attempt lastErr w,
    (count_user "attempt" (trace w) <= k)%nat ->
    (k - count_user "attempt" (trace w) < n)%nat ->
    grpc_retry.unaryLoop (retryCallOpts o) parentCtx method req
      (flaky_invoker k errs) n (S attempt) lastErr w
    = (Ret None,
       after_retries time_Second (S (k - count_user "attempt" (trace w))) w).
Proof.
  intros Hlive Htr.
  induction n as [|n IH]; intros attempt lastErr w Hle Hlt; [lia|].
  cbn [grpc_retry.unaryLoop].
  unfold bind at 1.
  assert (Hwait : grpc_retry.waitRetryBackoff (S attempt) parentCtx (retryCallOpts o) w
                  = (Ret None, emit (EvSleep time_Second) (advance time_Second w))).
  { unfold grpc_retry.waitRetryBackoff, grpc_retry.waitTime. simpl.
    rewrite Hlive. reflexivity. }
  rewrite Hwait. unfold bind at 1.
  destruct (perCallContext_world parentCtx (retryCallOpts o) (S attempt)
              (emit (EvSleep time_Second) (advance time_Second w))) as [c Hc].
  rewrite Hc. unfold bind at 1. unfold flaky_invoker at 1.
  assert (Hcount : count_user "attempt"
                     (trace (emit (EvSleep time_Second) (advance time_Second w)))
                   = count_user "attempt" (trace w)).
  { simpl. rewrite count_user_app. simpl. lia. }
  rewrite Hcount.
  destruct (Nat.ltb (count_user "attempt" (trace w)) k) eqn:Hk.
  - apply Nat.ltb_lt in Hk.
    destruct (transient_retriable _ o (Htr (count_user "attempt" (trace w))))
      as [Hctx Hret].
    rewrite Hctx, Hret. cbn [negb].
    assert (Hnext : count_user "attempt"
                      (trace (emit (EvUser "attempt")
                                (emit (EvSleep time_Second) (advance time_Second w))))
                    = S (count_user "attempt" (trace w))).
    { simpl. rewrite !count_user_app. simpl. lia. }
    rewrite IH by (rewrite Hnext; lia).
    rewrite Hnext.
    replace (S (k - count_user "attempt" (trace w)))
      with (S (S (k - S (count_user "attempt" (trace w))))) by lia.
    reflexivity.
  - apply Nat.ltb_ge in Hk.
    replace (k - count_user "attempt" (trace w))%nat with 0%nat by lia.
    reflexivity.
Qed.

(** The retry interceptor that [NewGRPCConn] configures stops at the first
    success: against a transport that fails [k] times with transient errors
    and then succeeds, with [k] smaller than the number of attempts it may
    make, it returns nil after [k + 1] attempts and [k] waits of one second
    each. *)
Theorem retry_stops_at_first_success :
  forall o parentCtx method req errs k w,
    (forall w', ctx_Err parentCtx w' = None) ->
    (forall i, transient (errs i)) ->
    count_user "attempt" (trace w) = 0%nat ->
    (k < Nat.max (client.retryMax o) 1)%nat ->
    let run := grpc_retry.UnaryClientInterceptor (client.retryOpts o)
                 parentCtx method req (flaky_invoker k errs) w in
    fst run = Ret None
    /\ count_user "attempt" (trace (snd run)) = S k
    /\ sleeps (trace (snd run)) = (sleeps (trace w) ++ repeat time_Second k)%list.
Proof.
  intros o parentCtx method req errs k w Hlive Htr Hzero Hk run.
  assert (Hrun : run = (Ret None,
                        after_retries time_Second k (emit (EvUser "attempt") w))).
  { subst run. unfold grpc_retry.UnaryClientInterceptor.
    change (grpc_retry.reuseOrNewWithCallOptions grpc_retry.defaultOptions
              (client.retryOpts o)) with (retryCallOpts o).
    cbv zeta.
    replace (grpc_retry.max (retryCallOpts o)) with (client.retryMax o)
      by reflexivity.
    destruct (client.retryMax o) as [|m] eqn:Hmax.
    - simpl. unfold flaky_invoker. rewrite Hzero.
      assert (k = 0%nat) by (simpl in Hk; lia). subst k. reflexivity.
    - cbn [Nat.eqb grpc_retry.unaryLoop]. unfold bind at 1.
      assert (Hwait : grpc_retry.waitRetryBackoff 0 parentCtx (retryCallOpts o) w
                      = (Ret None, w)) by reflexivity.
      rewrite Hwait. unfold bind at 1.
      destruct (perCallContext_world parentCtx (retryCallOpts o) 0 w) as [c Hc].
      rewrite Hc. unfold bind at 1. unfold flaky_invoker at 1. rewrite Hzero.
      assert (Hnext : count_user "attempt" (trace (emit (EvUser "attempt") w))
                      = 1%nat).
      { simpl. rewrite count_user_app. simpl. lia. }
      destruct k as [|k]; [reflexivity|].
      cbn [Nat.ltb Nat.leb].
      destruct (transient_retriable _ o (Htr 0%nat)) as [Hctx Hret].
      rewrite Hctx, Hret. cbn [negb].
      rewrite unaryLoop_flaky by (try assumption; rewrite Hnext; lia).
      rewrite Hnext.
      replace (S (S k - 1)) with (S k) by lia. reflexivity. }
  rewrite Hrun. cbn [fst snd]. split; [reflexivity|]. split.
  - rewrite after_retries_attempts. simpl trace. rewrite count_user_app.
    simpl. lia.
  - rewrite after_retries_sleeps. simpl trace. rewrite sleeps_app.
    simpl. rewrite app_nil_r. reflexivity.
Qed.

(** A failure whose code is none of Unavailable, ResourceExhausted,
    DeadlineExceeded and Canceled is not retried: whatever [retryMax] is,
    the retry interceptor that [NewGRPCConn] configures makes one attempt,
    waits for nothing and returns the failure. *)
Theorem retry_gives_up_on_other_failures :
  forall o parentCtx method req e w,
    status.Code (Some e) <> codes.Unavailable ->
    status.Code (Some e) <> codes.ResourceExhausted ->
    status.Code (Some e) <> codes.DeadlineExceeded ->
    status.Code (Some e) <> codes.Canceled ->
    grpc_retry.UnaryClientInterceptor (client.retryOpts o)
      parentCtx method req (failing_invoker (fun _ => e)) w
    = (Ret (Some e), emit (EvUser "attempt") w).
Proof.
  intros o parentCtx method req e w Hu Hr Hd Hc.
  assert (Hctx : grpc_retry.isContextError (Some e) = false).
  { unfold grpc_retry.isContextError.
    apply N.eqb_neq in Hd. apply N.eqb_neq in Hc. rewrite Hd, Hc. reflexivity. }
  assert (Hret : grpc_retry.isRetriable (Some e) (retryCallOpts o) = false).
  { unfold grpc_retry.isRetriable. rewrite Hctx.
    change (grpc_retry.codes_ (retryCallOpts o))
      with [codes.ResourceExhausted; codes.Unavailable].
    cbn [existsb].
    apply not_eq_sym in Hu. apply not_eq_sym in Hr.
    apply N.eqb_neq in Hu. apply N.eqb_neq in Hr. rewrite Hu, Hr. reflexivity. }
  unfold grpc_retry.UnaryClientInterceptor.
  change (grpc_retry.reuseOrNewWithCallOptions grpc_retry.defaultOptions
            (client.retryOpts o)) with (retryCallOpts o).
  cbv zeta.
  replace (grpc_retry.max (retryCallOpts o)) with (client.retryMax o)
    by reflexivity.
  destruct (client.retryMax o) as [|m] eqn:Hmax; [reflexivity|].
  cbn [Nat.eqb grpc_retry.unaryLoop]. unfold bind at 1.
  assert (Hwait : grpc_retry.waitRetryBackoff 0 parentCtx (retryCallOpts o) w
                  = (Ret None, w)) by reflexivity.
  rewrite Hwait. unfold bind at 1.
  destruct (perCallContext_world parentCtx (retryCallOpts o) 0 w) as [c Hcx].
  rewrite Hcx. unfold bind at 1. unfold failing_invoker at 1.
  rewrite Hctx, Hret. reflexivity.
Qed.
End RetryFurther.

(** * Concrete runs of the further properties *)

Lemma logging_record_contents_witness :
  answering_unary (AStr "pong") None request_ctx ANil empty_world
  = (Ret (AStr "pong", None), advance 5000000 empty_world)
  /\ answering_stream None ANil request_stream empty_world
     = (Ret None, advance 5000000 empty_world)
  /\ (exists entry,
         snd (@interceptor.UnaryServerInterceptor demo_platform app_logger
                [value_field "request-id"] request_ctx ANil call_info
                (answering_unary (AStr "pong") None) empty_world)
         = emit (EvLog (Core "app") entry) (advance 5000000 empty_world)
         /\ zapcore.Fields entry = [zapcore.mkField "request-id" (AStr "42")]
         /\ zapcore.Message entry = "latency=5000000ns    /svc/Call OK")
  /\ (exists entry,
         snd (@interceptor.StreamServerInterceptor demo_platform app_logger
                [value_field "request-id"] ANil request_stream watch_info
                (answering_stream None) empty_world)
         = emit (EvLog (Core "app") entry) (advance 5000000 empty_world)
         /\ zapcore.Fields entry = [zapcore.mkField "request-id" (AStr "42")]
         /\ zapcore.Message entry = "latency=5000000ns    /svc/Watch OK").
Proof.
  split; [reflexivity|]. split; [reflexivity|]. split.
  - exact (proj1 (@logging_record_contents demo_platform app_logger
                    [value_field "request-id"])
             request_ctx ANil call_info (answering_unary (AStr "pong") None)
             empty_world (AStr "pong") None (advance 5000000 empty_world) eq_refl).
  - exact (proj2 (@logging_record_contents demo_platform app_logger
                    [value_field "request-id"])
             ANil request_stream watch_info (answering_stream None)
             empty_world None (advance 5000000 empty_world) eq_refl).
Defined.

Lemma logging_skips_panicking_call_witness :
  panicking_unary (AStr "oops") request_ctx ANil empty_world
  = (Panic (AStr "oops"), empty_world)
  /\ panicking_stream (AStr "oops") ANil request_stream empty_world
     = (Panic (AStr "oops"), empty_world)
  /\ @interceptor.UnaryServerInterceptor demo_platform app_logger
       [value_field "request-id"] request_ctx ANil call_info
       (panicking_unary (AStr "oops")) empty_world
     = (Panic (AStr "oops"), empty_world)
  /\ @interceptor.StreamServerInterceptor demo_platform app_logger
       [value_field "request-id"] ANil request_stream watch_info
       (panicking_stream (AStr "oops")) empty_world
     = (Panic (AStr "oops"), empty_world).
Proof.
  split; [reflexivity|]. split; [reflexivity|]. split.
  - exact (proj1 (@logging_skips_panicking_call demo_platform app_logger
                    [value_field "request-id"])
             request_ctx ANil call_info (panicking_unary (AStr "oops"))
             empty_world (AStr "oops") empty_world eq_refl).
  - exact (proj2 (@logging_skips_panicking_call demo_platform app_logger
                    [value_field "request-id"])
             ANil request_stream watch_info (panicking_stream (AStr "oops"))
             empty_world (AStr "oops") empty_world eq_refl).
Defined.

Lemma logging_of_plain_errors_and_successes_witness :
  err_status plain_error = None
  /\ answering_unary ANil (Some plain_error) request_ctx ANil empty_world
     = (Ret (ANil, Some plain_error), advance 5000000 empty_world)
  /\ exists entry,
      snd (@interceptor.UnaryServerInterceptor demo_platform app_logger []
             request_ctx ANil call_info
             (answering_unary ANil (Some plain_error)) empty_world)
      = emit (EvLog (Core "app") entry) (advance 5000000 empty_world)
      /\ zapcore.Level_ entry = zapcore.InfoLevel
      /\ zapcore.Message entry
         = "latency=5000000ns    /svc/Call Unknown, err=disk full".
Proof.
  split; [reflexivity|]. split; [reflexivity|].
  exact (proj1 (@logging_of_plain_errors_and_successes demo_platform app_logger []
                  request_ctx ANil call_info
                  (answering_unary ANil (Some plain_error)) empty_world ANil
                  (advance 5000000 empty_world))
           plain_error eq_refl eq_refl).
Defined.

Lemma server_only_tls_witness :
  server.CAPath (server.creds (server.applyServerOptions pair_options)) = ""
  /\ server.CertPath (server.creds (server.applyServerOptions pair_options)) <> ""
  /\ server.KeyPath (server.creds (server.applyServerOptions pair_options)) <> ""
  /\ files tls_world "cert.pem" = Some [Byte.x43]
  /\ files tls_world "key.pem" = Some [Byte.x4b]
  /\ @X509KeyPair_err demo_platform [Byte.x43] [Byte.x4b] = None
  /\ exists srv w',
      @server.NewGRPCServer demo_platform pair_options tls_world
      = (Ret (Some srv, None), w')
      /\ grpc.srv_creds srv
         = Some {| tls.Certificates := [tls.mkCertificate [Byte.x43] [Byte.x4b]];
                   tls.RootCAs := None;
                   tls.ServerName := "";
                   tls.ClientAuth := tls.NoClientCert;
                   tls.ClientCAs := None |}
      /\ trace w'
         = [EvLog (Core "app")
              (zapcore.mkEntry zapcore.InfoLevel
                 "enable sample credentials in grpc server" []);
            EvReadFile "cert.pem"; EvReadFile "key.pem"].
Proof.
  split; [reflexivity|]. split; [discriminate|]. split; [discriminate|].
  split; [reflexivity|]. split; [reflexivity|]. split; [reflexivity|].
  exact (@server_only_tls demo_platform pair_options tls_world
           [Byte.x43] [Byte.x4b] eq_refl ltac:(discriminate) ltac:(discriminate)
           eq_refl eq_refl eq_refl).
Defined.

Lemma server_only_tls_needs_both_paths_witness :
  server.CAPath (server.creds (server.applyServerOptions cert_only_options)) = ""
  /\ (server.CertPath (server.creds (server.applyServerOptions cert_only_options))
      <> ""
      /\ server.KeyPath (server.creds (server.applyServerOptions cert_only_options))
         = "")
  /\ exists e w',
      @server.NewGRPCServer demo_platform cert_only_options tls_world
      = (Ret (None, Some e), w')
      /\ has_prefix "bad tls credentials: " (err_text e) = true
      /\ credentialErrorKind e = Some KeyPairInvalid.
Proof.
  assert (Hone : server.CertPath
                   (server.creds (server.applyServerOptions cert_only_options)) <> ""
                 /\ server.KeyPath
                      (server.creds (server.applyServerOptions cert_only_options)) = "")
    by (split; [discriminate|reflexivity]).
  split; [reflexivity|]. split; [exact Hone|].
  exact (@server_only_tls_needs_both_paths demo_platform cert_only_options tls_world
           eq_refl (or_intror Hone)).
Defined.

Lemma server_mutual_tls_witness :
  server.CAPath (server.creds (server.applyServerOptions mutual_options)) <> ""
  /\ files tls_world "ca.pem" = Some [Byte.x2d]
  /\ @AppendCertsFromPEM_ok demo_platform [Byte.x2d] = true
  /\ exists srv w',
      @server.NewGRPCServer demo_platform mutual_options tls_world
      = (Ret (Some srv, None), w')
      /\ grpc.srv_creds srv
         = Some {| tls.Certificates := [tls.mkCertificate [Byte.x43] [Byte.x4b]];
                   tls.RootCAs := None;
                   tls.ServerName := "";
                   tls.ClientAuth := tls.RequireAndVerifyClientCert;
                   tls.ClientCAs := Some [[Byte.x2d]] |}
      /\ reads (trace w') = ["ca.pem"; "cert.pem"; "key.pem"].
Proof.
  split; [discriminate|]. split; [reflexivity|]. split; [reflexivity|].
  exact (@server_mutual_tls demo_platform mutual_options tls_world
           [Byte.x2d] [Byte.x43] [Byte.x4b]
           ltac:(discriminate) ltac:(discriminate) ltac:(discriminate)
           eq_refl eq_refl eq_refl eq_refl eq_refl).
Defined.

Lemma server_ca_errors_witness :
  server.CAPath (server.creds (server.applyServerOptions mutual_options)) <> ""
  /\ files empty_world "ca.pem" = None
  /\ files bad_ca_world "ca.pem" = Some []
  /\ @AppendCertsFromPEM_ok demo_platform [] = false
  /\ (exists w',
         @server.NewGRPCServer demo_platform mutual_options empty_world
         = (Ret (None,
                 Some (mkError None
                         "failed to read ac cert: open ca.pem: no such file or directory")),
            w')
         /\ reads (trace w') = ["ca.pem"])
  /\ (exists w',
         @server.NewGRPCServer demo_platform mutual_options bad_ca_world
         = (Ret (None, Some (mkError None "bad ac certificate: %!w(<nil>)")), w')
         /\ reads (trace w') = ["ca.pem"]).
Proof.
  split; [discriminate|]. split; [reflexivity|]. split; [reflexivity|].
  split; [reflexivity|]. split.
  - exact (proj1 (@server_ca_errors demo_platform mutual_options empty_world
                    ltac:(discriminate)) eq_refl).
  - exact (proj2 (@server_ca_errors demo_platform mutual_options bad_ca_world
                    ltac:(discriminate)) [] eq_refl eq_refl).
Defined.

Lemma recovery_is_transparent_on_return_witness :
  @server.NewGRPCServer demo_platform plain_options empty_world
  = (Ret (Some (built_server plain_options empty_world), None),
     snd (@server.NewGRPCServer demo_platform plain_options empty_world))
  /\ answering_unary (AStr "pong") None request_ctx ANil empty_world
     = (Ret (AStr "pong", None), advance 5000000 empty_world)
  /\ grpc.serveUnary (built_server plain_options empty_world)
       request_ctx ANil call_info (answering_unary (AStr "pong") None) empty_world
     = (Ret (AStr "pong", None), advance 5000000 empty_world)
  /\ grpc.serveStream (built_server plain_options empty_world)
       ANil request_stream watch_info (answering_stream None) empty_world
     = (Ret None, advance 5000000 empty_world).
Proof.
  split; [reflexivity|]. split; [reflexivity|].
  pose proof (@recovery_is_transparent_on_return demo_platform plain_options
                empty_world _ _ eq_refl) as [HU HS].
  split.
  - exact (HU request_ctx ANil call_info (answering_unary (AStr "pong") None)
             empty_world (AStr "pong", None) (advance 5000000 empty_world) eq_refl).
  - exact (HS ANil request_stream watch_info (answering_stream None)
             empty_world None (advance 5000000 empty_world) eq_refl).
Defined.

Lemma server_with_logging_interceptor_witness :
  @server.NewGRPCServer demo_platform logging_options empty_world
  = (Ret (Some (built_server logging_options empty_world), None),
     snd (@server.NewGRPCServer demo_platform logging_options empty_world))
  /\ server.unaryInterceptors (server.applyServerOptions logging_options)
     = [@interceptor.UnaryServerInterceptor demo_platform app_logger
          [value_field "request-id"]]
  /\ (exists entry,
         grpc.serveUnary (built_server logging_options empty_world)
           request_ctx ANil call_info (answering_unary (AStr "pong") None)
           empty_world
         = (Ret (AStr "pong", None),
            emit (EvLog (Core "app") entry) (advance 5000000 empty_world))
         /\ zapcore.Message entry = "latency=5000000ns    /svc/Call OK")
  /\ grpc.serveUnary (built_server logging_options empty_world)
       request_ctx ANil call_info (panicking_unary (AStr "oops")) empty_world
     = (Ret (ANil, None),
        emit (EvLog (Core "app")
                (zapcore.mkEntry zapcore.ErrorLevel "recover unkown execption"
                   [zapcore.mkField "err" (AStr "oops")])) empty_world).
Proof.
  split; [reflexivity|]. split; [reflexivity|].
  split.
  - exact (proj1 (@server_with_logging_interceptor demo_platform logging_options
                    app_logger [value_field "request-id"] empty_world _ _
                    eq_refl eq_refl request_ctx ANil call_info
                    (answering_unary (AStr "pong") None) empty_world)
             (AStr "pong") None (advance 5000000 empty_world) eq_refl).
  - exact (proj2 (@server_with_logging_interceptor demo_platform logging_options
                    app_logger [value_field "request-id"] empty_world _ _
                    eq_refl eq_refl request_ctx ANil call_info
                    (panicking_unary (AStr "oops")) empty_world)
             (AStr "oops") empty_world eq_refl).
Defined.

Lemma client_tls_by_default_witness :
  client.Insecure (client.creds (client.applyClientOptions cert_only_client)) = false
  /\ client.CAPath (client.creds (client.applyClientOptions cert_only_client)) = ""
  /\ client.KeyPath (client.creds (client.applyClientOptions cert_only_client)) = ""
  /\ @client.clientCreds demo_platform (client.applyClientOptions cert_only_client)
       tls_world
     = (Ret (inr [grpc.WithTransportCredentials
                    (Some {| tls.Certificates := [];
                             tls.RootCAs := None;
                             tls.ServerName := "example";
                             tls.ClientAuth := tls.NoClientCert;
                             tls.ClientCAs := None |})]), tls_world).
Proof.
  split; [reflexivity|]. split; [reflexivity|]. split; [reflexivity|].
  exact (@client_tls_by_default demo_platform
           (client.applyClientOptions cert_only_client) tls_world
           eq_refl eq_refl (or_intror eq_refl)).
Defined.

Lemma client_ca_read_error_is_returned_as_is_witness :
  client.Insecure (client.creds (client.applyClientOptions ca_only_client)) = false
  /\ client.CAPath (client.creds (client.applyClientOptions ca_only_client)) <> ""
  /\ files empty_world "ca.pem" = None
  /\ @client.NewGRPCConn demo_platform "localhost:50051" ca_only_client empty_world
     = (Ret (None,
             Some (mkError None "open ca.pem: no such file or directory")),
        emit (EvReadFile "ca.pem") empty_world).
Proof.
  assert (Hca : client.CAPath
                  (client.creds (client.applyClientOptions ca_only_client)) <> "")
    by discriminate.
  split; [reflexivity|]. split; [exact Hca|]. split; [reflexivity|].
  exact (@client_ca_read_error_is_returned_as_is demo_platform "localhost:50051"
           ca_only_client empty_world eq_refl Hca eq_refl).
Defined.

Lemma client_credential_errors_share_a_message_witness :
  client.Insecure (client.creds (client.applyClientOptions ca_only_client)) = false
  /\ files bad_ca_world "ca.pem" = Some []
  /\ @AppendCertsFromPEM_ok demo_platform [] = false
  /\ @client.NewGRPCConn demo_platform "localhost:50051" ca_only_client bad_ca_world
     = (Ret (None, Some (mkError None "failed to append ca crt: %!w(<nil>)")),
        emit (EvReadFile "ca.pem") bad_ca_world)
  /\ @tls.LoadX509KeyPair demo_platform "cert.pem" "key.pem" empty_world
     = (Ret (tls.zeroCertificate,
             Some (mkError None "open cert.pem: no such file or directory")),
        emit (EvReadFile "cert.pem") empty_world)
  /\ @client.NewGRPCConn demo_platform "localhost:50051" pair_only_client empty_world
     = (Ret (None,
             Some (mkError None
                     "failed to append ca crt: open cert.pem: no such file or directory")),
        emit (EvReadFile "cert.pem") empty_world).
Proof.
  assert (Hca : client.CAPath
                  (client.creds (client.applyClientOptions ca_only_client)) <> "")
    by discriminate.
  assert (Hcert : client.CertPath
                    (client.creds (client.applyClientOptions pair_only_client)) <> "")
    by discriminate.
  assert (Hkey : client.KeyPath
                   (client.creds (client.applyClientOptions pair_only_client)) <> "")
    by discriminate.
  split; [reflexivity|]. split; [reflexivity|]. split; [reflexivity|].
  split.
  - exact (proj1 (@client_credential_errors_share_a_message demo_platform
                    "localhost:50051" ca_only_client bad_ca_world eq_refl)
             [] Hca eq_refl eq_refl).
  - split; [reflexivity|].
    exact (proj2 (@client_credential_errors_share_a_message demo_platform
                    "localhost:50051" pair_only_client empty_world eq_refl)
             tls.zeroCertificate
             (mkError None "open cert.pem: no such file or directory")
             (emit (EvReadFile "cert.pem") empty_world)
             eq_refl Hcert Hkey eq_refl).
Defined.

Lemma client_tls_with_ca_and_key_pair_witness :
  client.Insecure (client.creds (client.applyClientOptions full_client)) = false
  /\ files tls_world "ca.pem" = Some [Byte.x2d]
  /\ @AppendCertsFromPEM_ok demo_platform [Byte.x2d] = true
  /\ files tls_world "cert.pem" = Some [Byte.x43]
  /\ files tls_world "key.pem" = Some [Byte.x4b]
  /\ @X509KeyPair_err demo_platform [Byte.x43] [Byte.x4b] = None
  /\ @client.clientCreds demo_platform (client.applyClientOptions full_client)
       tls_world
     = (Ret (inr [grpc.WithTransportCredentials
                    (Some {| tls.Certificates :=
                               [tls.mkCertificate [Byte.x43] [Byte.x4b]];
                             tls.RootCAs := Some [[Byte.x2d]];
                             tls.ServerName := "example";
                             tls.ClientAuth := tls.NoClientCert;
                             tls.ClientCAs := None |})]),
        emit (EvReadFile "key.pem")
          (emit (EvReadFile "cert.pem") (emit (EvReadFile "ca.pem") tls_world))).
Proof.
  assert (Hca : client.CAPath
                  (client.creds (client.applyClientOptions full_client)) <> "")
    by discriminate.
  assert (Hcert : client.CertPath
                    (client.creds (client.applyClientOptions full_client)) <> "")
    by discriminate.
  assert (Hkey : client.KeyPath
                   (client.creds (client.applyClientOptions full_client)) <> "")
    by discriminate.
  split; [reflexivity|]. split; [reflexivity|]. split; [reflexivity|].
  split; [reflexivity|]. split; [reflexivity|]. split; [reflexivity|].
  exact (@client_tls_with_ca_and_key_pair demo_platform
           (client.applyClientOptions full_client) tls_world
           [Byte.x2d] [Byte.x43] [Byte.x4b]
           eq_refl Hca Hcert Hkey eq_refl eq_refl eq_refl eq_refl eq_refl).
Defined.

Lemma NewGRPCConn_after_credentials_witness :
  @client.clientCreds demo_platform (client.applyClientOptions cert_only_client)
    tls_world
  = (Ret (inr [grpc.WithTransportCredentials
                 (Some {| tls.Certificates := [];
                          tls.RootCAs := None;
                          tls.ServerName := "example";
                          tls.ClientAuth := tls.NoClientCert;
                          tls.ClientCAs := None |})]), tls_world)
  /\ @dial_target_err demo_platform "localhost:50051" = None
  /\ exists cc,
      @client.NewGRPCConn demo_platform "localhost:50051" cert_only_client tls_world
      = (Ret (Some cc, None), tls_world)
      /\ grpc.target cc = "localhost:50051"
      /\ grpc.insecure (grpc.dopts cc) = false
      /\ (grpc.TransportCredentials (grpc.dopts cc) = None <-> false = true).
Proof.
  split; [reflexivity|]. split; [reflexivity|].
  exact (proj2 (@NewGRPCConn_after_credentials demo_platform "localhost:50051"
                  cert_only_client tls_world _ tls_world eq_refl) eq_refl).
Defined.

Lemma connection_runs_the_callers_chain_only_witness :
  @client.NewGRPCConn demo_platform "localhost:50051" retry_client_options
    empty_world
  = (Ret (Some (built_conn "localhost:50051" retry_client_options empty_world),
          None), empty_world)
  /\ grpc.Invoke (built_conn "localhost:50051" retry_client_options empty_world)
       (failing_invoker (fun _ => unavailable))
       context.Background "/svc/Call" ANil empty_world
     = grpc_middleware.ChainUnaryClient [marking_unary "caller"]
         context.Background "/svc/Call" ANil
         (failing_invoker (fun _ => unavailable)) empty_world.
Proof.
  split; [reflexivity|].
  pose proof (@connection_runs_the_callers_chain_only demo_platform
                "localhost:50051" retry_client_options empty_world _ _ _ eq_refl)
    as (HU & _).
  exact (f_equal (fun m => m empty_world)
           (HU (failing_invoker (fun _ => unavailable))
              context.Background "/svc/Call" ANil)).
Defined.

Lemma retry_stops_at_first_success_witness :
  (forall w', ctx_Err context.Background w' = None)
  /\ (forall i : nat, transient unavailable)
  /\ count_user "attempt" (trace empty_world) = 0%nat
  /\ (2 < Nat.max (client.retryMax (retrying 5)) 1)%nat
  /\ fst (@grpc_retry.UnaryClientInterceptor demo_platform
            (client.retryOpts (retrying 5))
            context.Background "/svc/Call" ANil
            (flaky_invoker 2 (fun _ => unavailable)) empty_world)
     = Ret None
  /\ count_user "attempt"
       (trace (snd (@grpc_retry.UnaryClientInterceptor demo_platform
                      (client.retryOpts (retrying 5))
                      context.Background "/svc/Call" ANil
                      (flaky_invoker 2 (fun _ => unavailable)) empty_world)))
     = 3%nat
  /\ sleeps (trace (snd (@grpc_retry.UnaryClientInterceptor demo_platform
                           (client.retryOpts (retrying 5))
                           context.Background "/svc/Call" ANil
                           (flaky_invoker 2 (fun _ => unavailable)) empty_world)))
     = [time_Second; time_Second].
Proof.
  assert (Hlive : forall w', ctx_Err context.Background w' = None)
    by (intros; reflexivity).
  assert (Htr : forall i : nat, transient unavailable)
    by (intros; left; reflexivity).
  assert (Hk : (2 < Nat.max (client.retryMax (retrying 5)) 1)%nat)
    by (simpl; lia).
  split; [exact Hlive|]. split; [exact Htr|]. split; [reflexivity|].
  split; [exact Hk|].
  exact (@retry_stops_at_first_success demo_platform (retrying 5)
           context.Background "/svc/Call" ANil (fun _ => unavailable) 2%nat
           empty_world Hlive Htr eq_refl Hk).
Defined.

Lemma retry_gives_up_on_other_failures_witness :
  status.Code (Some invalid_argument) <> codes.Unavailable
  /\ status.Code (Some invalid_argument) <> codes.ResourceExhausted
  /\ status.Code (Some invalid_argument) <> codes.DeadlineExceeded
  /\ status.Code (Some invalid_argument) <> codes.Canceled
  /\ @grpc_retry.UnaryClientInterceptor demo_platform
       (client.retryOpts (retrying 5))
       context.Background "/svc/Call" ANil
       (failing_invoker (fun _ => invalid_argument)) empty_world
     = (Ret (Some invalid_argument), emit (EvUser "attempt") empty_world).
Proof.
  assert (H1 : status.Code (Some invalid_argument) <> codes.Unavailable)
    by discriminate.
  assert (H2 : status.Code (Some invalid_argument) <> codes.ResourceExhausted)
    by discriminate.
  assert (H3 : status.Code (Some invalid_argument) <> codes.DeadlineExceeded)
    by discriminate.
  assert (H4 : status.Code (Some invalid_argument) <> codes.Canceled)
    by discriminate.
  split; [exact H1|]. split; [exact H2|]. split; [exact H3|]. split; [exact H4|].
  exact (@retry_gives_up_on_other_failures demo_platform (retrying 5)
           context.Background "/svc/Call" ANil invalid_argument empty_world
           H1 H2 H3 H4).
Defined.
